(** * Ledger and review logic of the Gmail marketplace bot (src/bot.py)

    A shallow embedding of the [Database] class and of the handlers of
    [GmailBuyBot] that decide ledger outcomes: promo redemption, submission
    review, withdrawal creation and review, the daily bonus and the
    withdrawal conversation, together with user creation, the ban toggle,
    promo creation and [escape_html].

    Modelling conventions.
    - The SQLite connection is an explicit [Database] value threaded through
      every operation.  A table with a primary key is a finite map from the
      key to the row; an [UPDATE ... WHERE key = ?] is [alter] (a no-op when
      no row matches, as in SQL).
    - Amounts (SQLite [REAL], Python [float]) are IEEE 754 binary64 numbers,
      the kernel's primitive [float]: sums and differences round as they do
      in the program, and NaN and the infinities are values like any other.
      SQLite stores NaN as [NULL], so a [REAL] column is an [option]:
      [None] is [NULL], and arithmetic on [NULL] yields [NULL].
    - Integers (ids, counters, use limits) stay within SQLite's 64-bit
      range, where Python, SQLite and [Z] agree.
    - A Python call either returns or raises: [result].  Statements executed
      before a raise stay visible on the connection, so the state after a
      raise is the state reached so far. *)

From Stdlib Require Import ZArith Ascii Floats.
From stdpp Require Import gmap strings.

Local Open Scope Z_scope.

(** ** Python results *)

Inductive exn : Type :=
  | TypeError
  | ValueError.

Inductive result (A : Type) : Type :=
  | Return (a : A)
  | Raise (e : exn).
Arguments Return {A} a.
Arguments Raise {A} e.

(** ** SQL values *)

(** What SQLite keeps of a double, be it a bound Python [float] or the
    result of [REAL] arithmetic: NaN becomes [NULL]. *)
Definition sql_real (x : float) : option float :=
  if PrimFloat.is_nan x then None else Some x.

(** Binding a Python value that is a [float] or [None]. *)
Definition sql_bind (x : option float) : option float :=
  match x with
  | Some f => sql_real f
  | None => None
  end.

(** [column + ?] and [column - ?]: [NULL] is absorbing, and a NaN operand
    makes the result NaN, hence [NULL] as well. *)
Definition sql_add (x y : option float) : option float :=
  match x, y with
  | Some a, Some b => sql_real (a + b)%float
  | _, _ => None
  end.

Definition sql_sub (x y : option float) : option float :=
  match x, y with
  | Some a, Some b => sql_real (a - b)%float
  | _, _ => None
  end.

(** A datetime is a count of microseconds on the local clock. *)
Definition datetime := Z.

Definition microsecond (t : datetime) : Z := t mod 1000000.

(** [timedelta.days] of [now - last]: whole days, rounded towards minus
    infinity as [timedelta] normalises. *)
Definition days_between (now last : datetime) : Z :=
  (now - last) / 86400000000.

(** The text the [sqlite3] default adapter stores for a [datetime]:
    [val.isoformat(" ")], that is ["YYYY-MM-DD HH:MM:SS"] followed by
    [".ffffff"] exactly when the microsecond field is not zero.  The text is
    identified with the datetime it denotes. *)
Inductive iso_text : Type :=
  | IsoText (t : datetime).

Definition adapt_datetime (t : datetime) : iso_text := IsoText t.

(** [datetime.datetime.strptime(s, '%Y-%m-%d %H:%M:%S')]: the format has no
    [%f], so a text with a fractional part raises [ValueError]
    (unconverted data remains). *)
Definition strptime_YmdHMS (s : iso_text) : result datetime :=
  match s with
  | IsoText t => if microsecond t =? 0 then Return t else Raise ValueError
  end.

(** ** Text helpers *)

(** [text.replace(old, new)] for a one-character [old]: every occurrence,
    left to right.  The three characters [escape_html] replaces are ASCII,
    so replacing bytes of the UTF-8 text is replacing characters. *)
Fixpoint replace_char (old : Ascii.ascii) (new : string) (text : string) : string :=
  match text with
  | EmptyString => EmptyString
  | String a rest =>
      if Ascii.eqb a old then new +:+ replace_char old new rest
      else String a (replace_char old new rest)
  end.

(** [escape_html]: [None] and the empty string give [""]; otherwise the
    three replacements run one after the other, ampersand first. *)
Definition escape_html (text : option string) : string :=
  match text with
  | None => ""
  | Some "" => ""
  | Some t =>
      replace_char ">"%char "&gt;"
        (replace_char "<"%char "&lt;" (replace_char "&"%char "&amp;" t))
  end.

(** ** Rows *)

Record user : Type := mk_user {
  first_name : string;
  balance : option float;
  gmail_sell_count : Z;
  total_withdraw : option float;
  is_admin : bool;
  is_banned : bool;
  last_daily_claim : option iso_text;
}.

Record gmail_submission : Type := mk_gmail {
  g_user_id : Z;
  g_gmail : string;
  g_password : string;
  g_amount : option float;
  g_status : string;
  g_reject_reason : option string;
}.

Record withdrawal : Type := mk_withdrawal {
  w_user_id : Z;
  w_amount : option float;
  w_method : string;
  w_number : string;
  w_status : string;
}.

Record promo_code : Type := mk_promo {
  p_amount : option float;
  p_uses_left : Z;
  p_is_active : bool;
}.

(** Field updates, one per [SET] clause of the source. *)

Definition set_balance (b : option float) (u : user) : user :=
  mk_user (first_name u) b (gmail_sell_count u) (total_withdraw u)
          (is_admin u) (is_banned u) (last_daily_claim u).

Definition set_gmail_sell_count (n : Z) (u : user) : user :=
  mk_user (first_name u) (balance u) n (total_withdraw u)
          (is_admin u) (is_banned u) (last_daily_claim u).

Definition set_total_withdraw (t : option float) (u : user) : user :=
  mk_user (first_name u) (balance u) (gmail_sell_count u) t
          (is_admin u) (is_banned u) (last_daily_claim u).

Definition set_is_banned (b : bool) (u : user) : user :=
  mk_user (first_name u) (balance u) (gmail_sell_count u) (total_withdraw u)
          (is_admin u) b (last_daily_claim u).

Definition set_last_daily_claim (t : option iso_text) (u : user) : user :=
  mk_user (first_name u) (balance u) (gmail_sell_count u) (total_withdraw u)
          (is_admin u) (is_banned u) t.

Definition set_g_status (s : string) (r : option string)
    (g : gmail_submission) : gmail_submission :=
  mk_gmail (g_user_id g) (g_gmail g) (g_password g) (g_amount g) s r.

Definition set_w_status (s : string) (w : withdrawal) : withdrawal :=
  mk_withdrawal (w_user_id w) (w_amount w) (w_method w) (w_number w) s.

Definition set_p_uses_left (n : Z) (p : promo_code) : promo_code :=
  mk_promo (p_amount p) n (p_is_active p).

(** ** The store *)

(** [gmail_seq] and [withdrawals_seq] are the [sqlite_sequence] counters of
    the two [AUTOINCREMENT] tables: the next row id is the counter plus one.
    A settings value is the number [float()] reads from the stored text,
    which is the number [str()] was given when the text was written. *)
Record Database : Type := mk_db {
  users : gmap Z user;
  gmail_submissions : gmap Z gmail_submission;
  gmail_seq : Z;
  withdrawals : gmap Z withdrawal;
  withdrawals_seq : Z;
  promo_codes : gmap string promo_code;
  settings : gmap string float;
}.

Definition with_users (us : gmap Z user) (db : Database) : Database :=
  mk_db us (gmail_submissions db) (gmail_seq db) (withdrawals db)
        (withdrawals_seq db) (promo_codes db) (settings db).

Definition with_gmail_submissions (gs : gmap Z gmail_submission) (seq : Z)
    (db : Database) : Database :=
  mk_db (users db) gs seq (withdrawals db)
        (withdrawals_seq db) (promo_codes db) (settings db).

Definition with_withdrawals (ws : gmap Z withdrawal) (seq : Z)
    (db : Database) : Database :=
  mk_db (users db) (gmail_submissions db) (gmail_seq db) ws
        seq (promo_codes db) (settings db).

Definition with_promo_codes (ps : gmap string promo_code)
    (db : Database) : Database :=
  mk_db (users db) (gmail_submissions db) (gmail_seq db) (withdrawals db)
        (withdrawals_seq db) ps (settings db).

Definition with_settings (ss : gmap string float) (db : Database)
    : Database :=
  mk_db (users db) (gmail_submissions db) (gmail_seq db) (withdrawals db)
        (withdrawals_seq db) (promo_codes db) ss.

(** ** Database: promo codes, users, settings *)

Module Db.

(** The reply text of [use_promo_code]; the amount is printed as the row
    holds it. *)
Inductive promo_msg : Type :=
  | InvalidCode
  | CodeExpired
  | PromoAdded (amount : option float).

(** The rows the [INSERT OR IGNORE] of [create_tables] lists. *)
Definition default_settings : gmap string float :=
  <["min_withdraw" := 100%float]> (<["gmail_price" := 5%float]>
  (<["referral_commission" := 5%float]>
  (<["daily_bonus_amount" := 2%float]> ∅))).


Definition get_user (db : Database) (user_id : Z) : option user :=
  users db !! user_id.

(** [create_user].  [admin_ids] is [Config.ADMIN_IDS].  The columns
    [username], [referral_code], [referred_by] and [referral_earnings] are
    not part of the modelled row; [ref_code_taken] tells whether the
    referral code drawn for the new row collides with a stored one, the only
    way those columns bear on the outcome ([UNIQUE]).  Any failure of the
    [INSERT] is swallowed by the bare [except]. *)
Definition create_user (admin_ids : list Z) (db : Database) (user_id : Z)
    (first_name : string) (ref_code_taken : bool) : Database :=
  match users db !! user_id with
  | Some _ => db
  | None =>
      if ref_code_taken then db
      else
        with_users
          (<[user_id :=
               mk_user first_name (Some 0%float) 0 (Some 0%float)
                 (bool_decide (user_id ∈ admin_ids)) false None]> (users db))
          db
  end.

Definition ban_user (db : Database) (user_id : Z) : Database :=
  with_users (alter (set_is_banned true) user_id (users db)) db.

Definition unban_user (db : Database) (user_id : Z) : Database :=
  with_users (alter (set_is_banned false) user_id (users db)) db.

(** [UPDATE users SET balance = balance + ? WHERE user_id = ?] *)
Definition update_balance (db : Database) (user_id : Z)
    (amount : option float) : Database :=
  with_users
    (alter (λ u, set_balance (sql_add (balance u) amount) u) user_id (users db))
    db.

(** [INSERT OR REPLACE] of [str(value)]. *)
Definition update_setting (db : Database) (key : string) (value : float)
    : Database :=
  with_settings (<[key := value]> (settings db)) db.

(** [float(result[0]) if result else None] *)
Definition get_setting (db : Database) (key : string) : option float :=
  settings db !! key.

(** [SELECT ... WHERE code = ? AND is_active = TRUE], then the two guards,
    then the decrement and the credit. *)
Definition use_promo_code (db : Database) (code : string) (user_id : Z)
    : (bool * promo_msg) * Database :=
  match promo_codes db !! code with
  | Some promo =>
      if p_is_active promo then
        if p_uses_left promo <=? 0 then ((false, CodeExpired), db)
        else
          let db1 :=
            with_promo_codes
              (alter (λ p, set_p_uses_left (p_uses_left p - 1) p) code
                     (promo_codes db)) db in
          let db2 := update_balance db1 user_id (p_amount promo) in
          ((true, PromoAdded (p_amount promo)), db2)
      else ((false, InvalidCode), db)
  | None => ((false, InvalidCode), db)
  end.

(** ** Database: submissions *)

(** The [UNIQUE] constraint on [gmail]: some row already holds the address. *)
Definition gmail_taken (db : Database) (gmail : string) : bool :=
  bool_decide (map_Exists (λ _ g, g_gmail g = gmail) (gmail_submissions db)).

(** The [INSERT] raises [IntegrityError] on a duplicate address, which the
    bare [except] turns into [False]; new rows take the defaults
    [status = 'pending'] and [reject_reason = NULL]. *)
Definition add_gmail_submission (db : Database) (user_id : Z)
    (gmail password : string) (amount : option float) : bool * Database :=
  if gmail_taken db gmail then (false, db)
  else
    let gid := gmail_seq db + 1 in
    (true,
     with_gmail_submissions
       (<[gid := mk_gmail user_id gmail password (sql_bind amount)
                   "pending" None]>
          (gmail_submissions db)) gid db).

Definition get_gmail_by_id (db : Database) (gid : Z)
    : option gmail_submission :=
  gmail_submissions db !! gid.

Definition bump_gmail_sell_count (d : Z) (db : Database) (user_id : Z)
    : Database :=
  with_users
    (alter (λ u, set_gmail_sell_count (gmail_sell_count u + d) u) user_id
           (users db)) db.

(** [-g['amount']] raises [TypeError] on [None]. *)
Definition py_neg (x : option float) : result float :=
  match x with
  | Some a => Return (- a)%float
  | None => Raise TypeError
  end.

Definition update_gmail_status (db : Database) (gid : Z) (status : string)
    (reason : option string) : result bool * Database :=
  match get_gmail_by_id db gid with
  | None => (Return false, db)
  | Some g =>
      let db1 :=
        with_gmail_submissions
          (alter (set_g_status status reason) gid (gmail_submissions db))
          (gmail_seq db) db in
      if String.eqb status "success" then
        let db2 := update_balance db1 (g_user_id g) (g_amount g) in
        (Return true, bump_gmail_sell_count 1 db2 (g_user_id g))
      else if String.eqb status "rejected" && String.eqb (g_status g) "success"
      then
        match py_neg (g_amount g) with
        | Raise e => (Raise e, db1)
        | Return d =>
            let db2 := update_balance db1 (g_user_id g) (Some d) in
            (Return true, bump_gmail_sell_count (-1) db2 (g_user_id g))
        end
      else (Return true, db1)
  end.

(** ** Database: withdrawals *)

(** [r[0] if r else 0]; a [NULL] balance comes back as [None]. *)
Definition get_user_balance (db : Database) (uid : Z) : option float :=
  match users db !! uid with
  | Some r => balance r
  | None => Some 0%float
  end.

(** [bal < amt] raises [TypeError] when [bal] is [None], and is [False]
    whenever [amt] is NaN. *)
Definition add_withdrawal (db : Database) (uid : Z) (amt : float)
    (method num : string) : result (option Z) * Database :=
  match get_user_balance db uid with
  | None => (Raise TypeError, db)
  | Some bal =>
      if (bal <? amt)%float then (Return None, db)
      else
        let db1 :=
          with_users
            (alter (λ u, set_balance (sql_sub (balance u) (Some amt)) u) uid
                   (users db)) db in
        let wid := withdrawals_seq db + 1 in
        (Return (Some wid),
         with_withdrawals
           (<[wid := mk_withdrawal uid (sql_real amt) method num "pending"]>
              (withdrawals db1)) wid db1)
  end.

Definition get_withdrawal_by_id (db : Database) (wid : Z)
    : option withdrawal :=
  withdrawals db !! wid.

Definition update_withdrawal_status (db : Database) (wid : Z)
    (status : string) : bool * Database :=
  match get_withdrawal_by_id db wid with
  | None => (false, db)
  | Some w =>
      let db1 :=
        if String.eqb status "rejected" then
          with_users
            (alter (λ u, set_balance (sql_add (balance u) (w_amount w)) u)
                   (w_user_id w) (users db)) db
        else if String.eqb status "success" then
          with_users
            (alter (λ u, set_total_withdraw
                           (sql_add (total_withdraw u) (w_amount w)) u)
                   (w_user_id w) (users db)) db
        else db in
      (true,
       with_withdrawals
         (alter (set_w_status status) wid (withdrawals db1))
         (withdrawals_seq db1) db1)
  end.

End Db.

(** ** GmailBuyBot: the handlers that touch the ledger *)

Module Bot.

Inductive bonus_reply : Type :=
  | BonusClaimed (amt : option float)
  | AlreadyClaimed.

(** The four statements both claiming branches of [show_daily_bonus] run. *)
Definition claim_bonus (db : Database) (uid : Z) (now : datetime)
    : result bonus_reply * Database :=
  let amt := Db.get_setting db "daily_bonus_amount" in
  let db1 := Db.update_balance db uid amt in
  let db2 :=
    with_users
      (alter (set_last_daily_claim (Some (adapt_datetime now))) uid (users db1))
      db1 in
  (Return (BonusClaimed amt), db2).

(** [now] is the value of [datetime.datetime.now()].  Subscripting the
    [None] that [get_user] returns for an unknown user raises [TypeError]. *)
Definition show_daily_bonus (db : Database) (uid : Z) (now : datetime)
    : result bonus_reply * Database :=
  match Db.get_user db uid with
  | None => (Raise TypeError, db)
  | Some user =>
      match last_daily_claim user with
      | None => claim_bonus db uid now
      | Some text =>
          match strptime_YmdHMS text with
          | Raise e => (Raise e, db)
          | Return last =>
              if 1 <=? days_between now last then claim_bonus db uid now
              else (Return AlreadyClaimed, db)
          end
      end
  end.

(** [enter_password]: the price is read from the settings at submission
    time; the reply is the same whatever [add_gmail_submission] returns. *)
Definition enter_password (db : Database) (uid : Z)
    (temp_gmail password : string) : Database :=
  snd (Db.add_gmail_submission db uid temp_gmail password
         (Db.get_setting db "gmail_price")).

(** [enter_withdraw_amount].  [text] is the message as [float()] reads it:
    [None] when it is not a number ([ValueError]), and otherwise the float,
    which for the messages ["nan"] and ["inf"] is NaN and infinity.  The
    handler answers with [None] for the reply "Invalid Amount" and with
    [Some amt] when it stores [w_amt] and moves on to asking for the
    number. *)
Definition enter_withdraw_amount (db : Database) (uid : Z)
    (text : option float) : result (option float) :=
  match text with
  | None => Raise ValueError
  | Some amt =>
      if (amt <? 100)%float then Return None
      else
        match Db.get_user_balance db uid with
        | None => Raise TypeError
        | Some bal =>
            if (bal <? amt)%float then Return None else Return (Some amt)
        end
  end.

(** [enter_withdraw_number]: the result of [add_withdrawal] is dropped and
    the reply is always "Request Sent". *)
Definition enter_withdraw_number (db : Database) (uid : Z) (w_amt : float)
    (number : string) : result unit * Database :=
  match Db.add_withdrawal db uid w_amt "bKash" number with
  | (Raise e, db') => (Raise e, db')
  | (Return _, db') => (Return tt, db')
  end.

(** The withdraw conversation with no other event in between. *)
Definition withdraw_conversation (db : Database) (uid : Z)
    (text : option float) (number : string) : result bool * Database :=
  match enter_withdraw_amount db uid text with
  | Raise e => (Raise e, db)
  | Return None => (Return false, db)
  | Return (Some w_amt) =>
      match enter_withdraw_number db uid w_amt number with
      | (Raise e, db') => (Raise e, db')
      | (Return _, db') => (Return true, db')
      end
  end.

(** The conversation state [ADMIN_USER_ACTION_SELECT], the 22nd name bound
    by [range(28)]. *)
Definition ADMIN_USER_ACTION_SELECT : Z := 21.

(** [admin_perform_user_action].  [action] is [data.split('_')[-1]] and
    [uid] the stored [admin_target_uid].  The ["addbal"] branch only sends
    two messages.  The ["ban"] branch flips the flag and then calls
    [admin_user_action_select], whose first statement applies [int] to the
    same last segment, the text ["ban"], and so raises [ValueError]; the
    flip is committed by then.  Any other action falls off the end and
    returns [None]. *)
Definition admin_perform_user_action (db : Database) (action : string)
    (uid : Z) : result (option Z) * Database :=
  if String.eqb action "addbal" then
    (Return (Some ADMIN_USER_ACTION_SELECT), db)
  else if String.eqb action "ban" then
    match Db.get_user db uid with
    | None => (Raise TypeError, db)
    | Some u =>
        let db1 :=
          if is_banned u then Db.unban_user db uid else Db.ban_user db uid in
        (Raise ValueError, db1)
    end
  else (Return None, db).

(** [show_withdraw_info]: whether the "Request" button is offered. *)
Definition show_withdraw_info (db : Database) (uid : Z) : result bool :=
  match Db.get_user_balance db uid with
  | None => Raise TypeError
  | Some bal => Return (100 <=? bal)%float
  end.

End Bot.

(** * Predicates and writers used by the statements *)

(** Every withdrawal row id is at most the sequence counter: the invariant
    [AUTOINCREMENT] maintains. *)
Definition withdrawal_ids_bounded (db : Database) : Prop :=
  ∀ wid w, withdrawals db !! wid = Some w → wid ≤ withdrawals_seq db.

(** [UPDATE users SET is_banned = ? WHERE user_id = ?], the statement of
    [ban_user] and [unban_user] with the written value as a parameter. *)
Definition write_is_banned (flag : bool) (target : Z) (db : Database)
    : Database :=
  with_users (alter (set_is_banned flag) target (users db)) db.

(** Every submission row id is at most the sequence counter. *)
Definition gmail_ids_bounded (db : Database) : Prop :=
  ∀ gid g, gmail_submissions db !! gid = Some g → gid ≤ gmail_seq db.

(** The [UNIQUE] constraint on [gmail_submissions.gmail]. *)
Definition gmail_unique (db : Database) : Prop :=
  ∀ i j gi gj,
    gmail_submissions db !! i = Some gi →
    gmail_submissions db !! j = Some gj →
    g_gmail gi = g_gmail gj → i = j.

(** One [use_promo_code] call per user id of the list, in order, with the
    success flags collected. *)
Fixpoint redeem_each (db : Database) (code : string) (uids : list Z)
    : list bool * Database :=
  match uids with
  | [] => ([], db)
  | uid :: rest =>
      let r := Db.use_promo_code db code uid in
      let rs := redeem_each (snd r) code rest in
      (fst (fst r) :: fst rs, snd rs)
  end.

(** Whether the character occurs in the text. *)
Fixpoint occurs (c : Ascii.ascii) (text : string) : bool :=
  match text with
  | EmptyString => false
  | String a rest => Ascii.eqb a c || occurs c rest
  end.

(** The replacement [escape_html] makes for one character. *)
Definition escape_char (a : Ascii.ascii) : string :=
  if Ascii.eqb a "&"%char then "&amp;"
  else if Ascii.eqb a "<"%char then "&lt;"
  else if Ascii.eqb a ">"%char then "&gt;"
  else String a "".

(** The text escaped one character at a time. *)
Fixpoint escape_each (text : string) : string :=
  match text with
  | EmptyString => EmptyString
  | String a rest => escape_char a +:+ escape_each rest
  end.

(** * Concrete stores used by the examples *)

Module Examples.

Definition alice : user :=
  mk_user "Alice" (Some 200%float) 0 (Some 0%float) false false None.

Definition db0 : Database :=
  mk_db (<[7 := alice]> ∅) ∅ 0 ∅ 0 ∅ Db.default_settings.

End Examples.


(** * Properties *)

(** ** Map lemmas: what an [UPDATE ... WHERE key = ?] does *)

Section alter_facts.
Context {K A : Type} `{Countable K}.
Implicit Types (f g : A → A) (m : gmap K A).

Lemma alter_lookup_Some f k x m :
  m !! k = Some x → alter f k m = <[k := f x]> m.
Proof.
  intros Hk. apply map_eq. intros j.
  rewrite lookup_alter, lookup_insert.
  case_decide; subst; [by rewrite Hk | done].
Qed.

Lemma alter_lookup_None f k m : m !! k = None → alter f k m = m.
Proof.
  intros Hk. apply map_eq. intros j.
  rewrite lookup_alter.
  case_decide; subst; [by rewrite Hk | done].
Qed.

(** Two updates of different columns can be swapped. *)
Lemma alter_swap f g j k m :
  (∀ x, f (g x) = g (f x)) →
  alter f j (alter g k m) = alter g k (alter f j m).
Proof.
  intros Hfg. apply map_eq. intros i.
  rewrite !lookup_alter.
  repeat case_decide; subst; destruct (m !! i); simpl; congruence.
Qed.
End alter_facts.

(** ** Comparisons of doubles *)

(** Swapping the operands of a comparison swaps its outcome; there is no
    outcome at all when an operand is NaN. *)
Lemma SFcompare_antisym (x y : spec_float) :
  SFcompare y x = option_map CompOpp (SFcompare x y).
Proof.
  destruct x as [sx | sx | | sx mx ex], y as [sy | sy | | sy my ey];
    simpl; try reflexivity;
    try (destruct sx; reflexivity); try (destruct sy; reflexivity);
    try (destruct sx, sy; reflexivity).
  change (PosDef.Pos.compare_cont Eq my mx) with (Pos.compare my mx).
  change (PosDef.Pos.compare_cont Eq mx my) with (Pos.compare mx my).
  rewrite (Z.compare_antisym ey ex), (Pos.compare_antisym my mx).
  destruct sx, sy; simpl; try reflexivity;
    destruct (ey ?= ex)%Z; simpl; try reflexivity;
    by destruct (my ?= mx)%positive.
Qed.

Lemma SFcompare_refl (x : spec_float) :
  x ≠ S754_nan → SFcompare x x = Some Eq.
Proof.
  destruct x as [s | s | | s m e]; simpl; try done.
  - by destruct s.
  - intros _. change (PosDef.Pos.compare_cont Eq m m) with (Pos.compare m m).
    rewrite Z.compare_refl, Pos.compare_refl. by destruct s.
Qed.

(** [a <= b] rules out [b < a]. *)
Lemma leb_not_ltb (a b : float) :
  (a <=? b)%float = true → (b <? a)%float = false.
Proof.
  rewrite FloatAxioms.leb_spec, FloatAxioms.ltb_spec. unfold SFleb, SFltb.
  rewrite (SFcompare_antisym (Prim2SF a) (Prim2SF b)).
  by destruct (SFcompare (Prim2SF a) (Prim2SF b)) as [[| |] |].
Qed.

(** A number compared successfully is not NaN. *)
Lemma leb_is_number (a b : float) :
  (a <=? b)%float = true → sql_real a = Some a.
Proof.
  intros Hle. unfold sql_real, PrimFloat.is_nan.
  rewrite FloatAxioms.eqb_spec. unfold SFeqb. rewrite SFcompare_refl; [reflexivity |].
  intros Hnan. rewrite FloatAxioms.leb_spec in Hle. unfold SFleb in Hle.
  by rewrite Hnan in Hle.
Qed.

(** ** Withdrawal creation *)




(** Row ids handed out so far never exceed the sequence counter, so the
    pending record of a new withdrawal replaces no earlier one. *)
Lemma add_withdrawal_fresh_id (db : Database) :
  withdrawal_ids_bounded db →
  withdrawals db !! (withdrawals_seq db + 1) = None.
Proof.
  intros Hb. destruct (withdrawals db !! (withdrawals_seq db + 1)) eqn:E;
    [| reflexivity].
  apply Hb in E. lia.
Qed.

Lemma add_withdrawal_ids_bounded (db : Database) uid amt method num :
  withdrawal_ids_bounded db →
  withdrawal_ids_bounded (snd (Db.add_withdrawal db uid amt method num)).
Proof.
  intros Hb. unfold Db.add_withdrawal.
  destruct (Db.get_user_balance db uid) as [bal |]; [| exact Hb].
  destruct (bal <? amt)%float; [exact Hb |].
  intros wid w. simpl. rewrite lookup_insert.
  case_decide; [lia |]. intros Hw. apply Hb in Hw. lia.
Qed.

(** ** Promo redemption *)

(** C6.  A stored code that is inactive or has no use left is refused and
    the store is returned as it was, so neither [uses_left] nor any balance
    changes: an inactive code is answered "Invalid Code", an active code
    with [uses_left <= 0] "Code Expired". *)
Theorem use_promo_code_rejects_spent_or_inactive
    (db : Database) (code : string) (user_id : Z) (promo : promo_code) :
  promo_codes db !! code = Some promo →
  p_uses_left promo ≤ 0 ∨ p_is_active promo = false →
  Db.use_promo_code db code user_id =
    ((false, if p_is_active promo then Db.CodeExpired else Db.InvalidCode),
     db).
Proof.
  intros Hp Hbad. unfold Db.use_promo_code. rewrite Hp.
  destruct (p_is_active promo); [| reflexivity].
  destruct Hbad as [Hle | Hoff]; [| discriminate].
  destruct (Z.leb_spec (p_uses_left promo) 0); [reflexivity | lia].
Qed.

Lemma use_promo_code_rejects_spent_or_inactive_witness :
  let db :=
    with_promo_codes (<["SAVE10" := mk_promo (Some 10%float) 0 true]> ∅)
      Examples.db0 in
  Db.use_promo_code db "SAVE10" 7 = ((false, Db.CodeExpired), db).
Proof.
  intros db.
  apply (use_promo_code_rejects_spent_or_inactive db "SAVE10" 7
           (mk_promo (Some 10%float) 0 true)); [reflexivity | left; simpl; lia].
Defined.

(** C10.  An active code with a use left, redeemed under a user id that has
    no row in [users], still answers success and loses one use, while the
    users table is exactly what it was: nobody is credited. *)
Theorem use_promo_code_unknown_user_spends_use
    (db : Database) (code : string) (user_id : Z) (promo : promo_code) :
  promo_codes db !! code = Some promo →
  p_is_active promo = true →
  1 ≤ p_uses_left promo →
  users db !! user_id = None →
  Db.use_promo_code db code user_id =
    ((true, Db.PromoAdded (p_amount promo)),
     with_promo_codes
       (<[code := set_p_uses_left (p_uses_left promo - 1) promo]>
          (promo_codes db)) db).
Proof.
  intros Hp Hact Huses Hnone. unfold Db.use_promo_code.
  rewrite Hp, Hact.
  destruct (Z.leb_spec (p_uses_left promo) 0); [lia |].
  unfold Db.update_balance. simpl.
  rewrite (alter_lookup_None _ _ _ Hnone), (alter_lookup_Some _ _ _ _ Hp).
  reflexivity.
Qed.

Lemma use_promo_code_unknown_user_spends_use_witness :
  let db :=
    with_promo_codes (<["SAVE10" := mk_promo (Some 10%float) 1 true]> ∅)
      Examples.db0 in
  Db.use_promo_code db "SAVE10" 99 =
    ((true, Db.PromoAdded (Some 10%float)),
     with_promo_codes
       (<["SAVE10" := mk_promo (Some 10%float) 0 true]> (promo_codes db)) db).
Proof.
  intros db.
  apply (use_promo_code_unknown_user_spends_use db "SAVE10" 99
           (mk_promo (Some 10%float) 1 true));
    [reflexivity | reflexivity | simpl; lia | reflexivity].
Defined.

(** ** Submission review *)

(** X30.  [enter_password] writes the price of the moment onto the new row
    ([NULL] when the [gmail_price] row is missing or holds NaN); a later
    [update_setting] does not reach the submissions table. *)
Lemma enter_password_snapshots_price
    (db : Database) (uid : Z) (gmail password : string) :
  Db.gmail_taken db gmail = false →
  gmail_submissions (Bot.enter_password db uid gmail password)
    !! (gmail_seq db + 1) =
    Some (mk_gmail uid gmail password
            (sql_bind (Db.get_setting db "gmail_price")) "pending" None).
Proof.
  intros Hfree. unfold Bot.enter_password, Db.add_gmail_submission.
  rewrite Hfree. simpl. apply lookup_insert_eq.
Qed.

Lemma update_setting_keeps_submissions
    (db : Database) (key : string) (value : float) :
  gmail_submissions (Db.update_setting db key value) = gmail_submissions db.
Proof. reflexivity. Qed.

(** C9.  Moving a [success] submission to [rejected] takes the amount stored
    on the submission row off the owner's balance (the stored amount is
    negated and added) and one off [gmail_sell_count]; the settings table
    (and with it the current [gmail_price]) plays no part: for any settings
    [ss] the users table after the call is the same. *)
Theorem update_gmail_status_reject_debits_snapshot
    (db : Database) (ss : gmap string float) (gid : Z) (a b : float)
    (g : gmail_submission) (u : user) (reason : option string) :
  gmail_submissions db !! gid = Some g →
  g_status g = "success" →
  g_amount g = Some a →
  users db !! g_user_id g = Some u →
  balance u = Some b →
  Db.update_gmail_status (with_settings ss db) gid "rejected" reason =
    (Return true,
     mk_db (<[g_user_id g :=
              set_gmail_sell_count (gmail_sell_count u - 1)
                (set_balance (sql_real (b + - a)%float) u)]> (users db))
           (<[gid := set_g_status "rejected" reason g]> (gmail_submissions db))
           (gmail_seq db) (withdrawals db) (withdrawals_seq db)
           (promo_codes db) ss).
Proof.
  intros Hg Hst Ha Hu Hb.
  unfold Db.update_gmail_status, Db.get_gmail_by_id. simpl.
  rewrite Hg, Hst, Ha. simpl.
  unfold Db.bump_gmail_sell_count, Db.update_balance, with_users,
    with_gmail_submissions. simpl.
  rewrite (alter_lookup_Some _ _ _ _ Hg), (alter_lookup_Some _ _ _ _ Hu).
  rewrite alter_insert_eq, Hb. simpl.
  reflexivity.
Qed.

Lemma update_gmail_status_reject_debits_snapshot_witness :
  let db :=
    mk_db (<[7 := mk_user "Alice" (Some 12%float) 1 (Some 0%float)
                    false false None]> ∅)
          (<[1 := mk_gmail 7 "a@gmail.com" "pw" (Some 5%float) "success"
                    None]> ∅)
          1 ∅ 0 ∅ ∅ in
  Db.update_gmail_status
    (with_settings (<["gmail_price" := 9%float]> ∅) db) 1 "rejected" None =
    (Return true,
     mk_db (<[7 := mk_user "Alice" (Some 7%float) 0 (Some 0%float)
                     false false None]> (users db))
           (<[1 := mk_gmail 7 "a@gmail.com" "pw" (Some 5%float) "rejected"
                     None]> (gmail_submissions db))
           1 ∅ 0 ∅ (<["gmail_price" := 9%float]> ∅)).
Proof.
  intros db.
  apply (update_gmail_status_reject_debits_snapshot db
           (<["gmail_price" := 9%float]> ∅) 1 5 12
           (mk_gmail 7 "a@gmail.com" "pw" (Some 5%float) "success" None)
           (mk_user "Alice" (Some 12%float) 1 (Some 0%float) false false None)
           None);
    reflexivity.
Defined.

(** C1 (the code departs from the claim).  Approving a submission that is
    already [success] credits the amount stored on the row a second time and
    raises [gmail_sell_count] once more: the approve branch of
    [update_gmail_status] never looks at the current status, unlike the
    reject branch next to it. *)
Theorem update_gmail_status_reapprove_credits_again
    (db : Database) (gid : Z) (a b : float) (g : gmail_submission) (u : user)
    (reason : option string) :
  gmail_submissions db !! gid = Some g →
  g_status g = "success" →
  g_amount g = Some a →
  users db !! g_user_id g = Some u →
  balance u = Some b →
  Db.update_gmail_status db gid "success" reason =
    (Return true,
     mk_db (<[g_user_id g :=
              set_gmail_sell_count (gmail_sell_count u + 1)
                (set_balance (sql_real (b + a)%float) u)]> (users db))
           (<[gid := set_g_status "success" reason g]> (gmail_submissions db))
           (gmail_seq db) (withdrawals db) (withdrawals_seq db)
           (promo_codes db) (settings db)).
Proof.
  intros Hg _ Ha Hu Hb.
  unfold Db.update_gmail_status, Db.get_gmail_by_id.
  rewrite Hg. simpl.
  unfold Db.bump_gmail_sell_count, Db.update_balance, with_users,
    with_gmail_submissions. simpl.
  rewrite (alter_lookup_Some _ _ _ _ Hg), (alter_lookup_Some _ _ _ _ Hu).
  rewrite alter_insert_eq, Ha, Hb. reflexivity.
Qed.

Lemma update_gmail_status_reapprove_credits_again_witness :
  let db :=
    mk_db (<[7 := mk_user "Alice" (Some 5%float) 1 (Some 0%float)
                    false false None]> ∅)
          (<[1 := mk_gmail 7 "a@gmail.com" "pw" (Some 5%float) "success"
                    None]> ∅)
          1 ∅ 0 ∅ Db.default_settings in
  Db.update_gmail_status db 1 "success" None =
    (Return true,
     mk_db (<[7 := mk_user "Alice" (Some 10%float) 2 (Some 0%float)
                     false false None]> (users db))
           (<[1 := mk_gmail 7 "a@gmail.com" "pw" (Some 5%float) "success"
                     None]> (gmail_submissions db))
           1 ∅ 0 ∅ Db.default_settings).
Proof.
  intros db.
  apply (update_gmail_status_reapprove_credits_again db 1 5 5
           (mk_gmail 7 "a@gmail.com" "pw" (Some 5%float) "success" None)
           (mk_user "Alice" (Some 5%float) 1 (Some 0%float) false false None)
           None);
    reflexivity.
Defined.

(** A submission approved once from [pending] and then approved again: the
    balance goes from 0 to 5 and then to 10. *)
Example approve_twice_credits_twice :
  let db :=
    mk_db (<[7 := mk_user "Alice" (Some 0%float) 0 (Some 0%float)
                    false false None]> ∅)
          (<[1 := mk_gmail 7 "a@gmail.com" "pw" (Some 5%float) "pending"
                    None]> ∅)
          1 ∅ 0 ∅ Db.default_settings in
  let db1 := snd (Db.update_gmail_status db 1 "success" None) in
  let db2 := snd (Db.update_gmail_status db1 1 "success" None) in
  Db.get_user_balance db1 7 = Some 5%float
  ∧ Db.get_user_balance db2 7 = Some 10%float.
Proof. vm_compute. split; reflexivity. Qed.

(** ** Withdrawal review *)

(** C2, as the code has it.  [update_withdrawal_status] never reads the
    current status: on any stored withdrawal, terminal or not, it returns
    [True], writes the requested status and leaves the other fields and
    every other withdrawal alone.  Only the owner's user row can change; a
    [success] request leaves every balance as it was and a [rejected]
    request leaves every [total_withdraw] as it was. *)
Theorem update_withdrawal_status_ignores_current_status
    (db : Database) (wid : Z) (w : withdrawal) (status : string) :
  withdrawals db !! wid = Some w →
  let r := Db.update_withdrawal_status db wid status in
  fst r = true
  ∧ withdrawals (snd r) = <[wid := set_w_status status w]> (withdrawals db)
  ∧ (∀ uid, uid ≠ w_user_id w → users (snd r) !! uid = users db !! uid)
  ∧ (status = "success" →
     ∀ uid, balance <$> users (snd r) !! uid = balance <$> users db !! uid)
  ∧ (status = "rejected" →
     ∀ uid, total_withdraw <$> users (snd r) !! uid =
            total_withdraw <$> users db !! uid).
Proof.
  intros Hw r. subst r.
  unfold Db.update_withdrawal_status, Db.get_withdrawal_by_id. rewrite Hw.
  simpl. split; [reflexivity |]. split.
  { destruct (String.eqb status "rejected");
      [| destruct (String.eqb status "success")];
      simpl; by rewrite (alter_lookup_Some _ _ _ _ Hw). }
  split.
  { intros uid Hne.
    destruct (String.eqb status "rejected");
      [| destruct (String.eqb status "success")];
      simpl; try reflexivity; by rewrite lookup_alter_ne. }
  split.
  - intros -> uid. simpl. rewrite lookup_alter.
    case_decide; [subst; by destruct (users db !! w_user_id w) | done].
  - intros -> uid. simpl. rewrite lookup_alter.
    case_decide; [subst; by destruct (users db !! w_user_id w) | done].
Qed.

Lemma update_withdrawal_status_ignores_current_status_witness :
  let db :=
    mk_db (<[7 := mk_user "Alice" (Some 50%float) 0 (Some 150%float)
                    false false None]> ∅) ∅ 0
          (<[1 := mk_withdrawal 7 (Some 150%float) "bKash" "017" "success"]> ∅)
          1 ∅ ∅ in
  let r := Db.update_withdrawal_status db 1 "pending" in
  fst r = true
  ∧ withdrawals (snd r) =
      <[1 := mk_withdrawal 7 (Some 150%float) "bKash" "017" "pending"]>
        (withdrawals db).
Proof.
  intros db r.
  destruct (update_withdrawal_status_ignores_current_status db 1
              (mk_withdrawal 7 (Some 150%float) "bKash" "017" "success")
              "pending" eq_refl) as (Hret & Hrow & _).
  split; [exact Hret | exact Hrow].
Defined.

(** An id with no row is the only refusal, and it changes nothing. *)
Lemma update_withdrawal_status_not_found
    (db : Database) (wid : Z) (status : string) :
  withdrawals db !! wid = None →
  Db.update_withdrawal_status db wid status = (false, db).
Proof.
  intros Hw. unfold Db.update_withdrawal_status, Db.get_withdrawal_by_id.
  by rewrite Hw.
Qed.

(** C2 fails as stated: rejecting a withdrawal that is already [rejected]
    returns [True] and refunds the amount once more, 200 becoming 350. *)
Lemma update_withdrawal_status_terminal_counterexample :
  let db :=
    mk_db (<[7 := mk_user "Alice" (Some 200%float) 0 (Some 0%float)
                    false false None]> ∅) ∅ 0
          (<[1 := mk_withdrawal 7 (Some 150%float) "bKash" "017" "rejected"]>
             ∅) 1 ∅ ∅ in
  Db.get_withdrawal_by_id db 1 =
    Some (mk_withdrawal 7 (Some 150%float) "bKash" "017" "rejected")
  ∧ Db.get_user_balance db 7 = Some 200%float
  ∧ fst (Db.update_withdrawal_status db 1 "rejected") = true
  ∧ Db.get_user_balance (snd (Db.update_withdrawal_status db 1 "rejected")) 7
    = Some 350%float.
Proof. vm_compute. repeat split; reflexivity. Qed.

(** ** The ban flag *)

(** Writing [is_banned] commutes with the three user operations: none of
    them reads the column. *)
Section ban_flag.
Variables (flag : bool) (target : Z).

Lemma get_user_balance_write_is_banned db uid :
  Db.get_user_balance (write_is_banned flag target db) uid = Db.get_user_balance db uid.
Proof.
  unfold Db.get_user_balance, write_is_banned. simpl.
  rewrite lookup_alter. case_decide; [subst |]; by destruct (users db !! uid).
Qed.

Lemma add_gmail_submission_write_is_banned db uid gmail password amount :
  Db.add_gmail_submission (write_is_banned flag target db) uid gmail password amount =
    (fst (Db.add_gmail_submission db uid gmail password amount),
     write_is_banned flag target
       (snd (Db.add_gmail_submission db uid gmail password amount))).
Proof.
  unfold Db.add_gmail_submission.
  change (Db.gmail_taken (write_is_banned flag target db) gmail)
    with (Db.gmail_taken db gmail).
  destruct (Db.gmail_taken db gmail); reflexivity.
Qed.

Lemma add_withdrawal_write_is_banned db uid amt method num :
  Db.add_withdrawal (write_is_banned flag target db) uid amt method num =
    (fst (Db.add_withdrawal db uid amt method num),
     write_is_banned flag target (snd (Db.add_withdrawal db uid amt method num))).
Proof.
  unfold Db.add_withdrawal. rewrite get_user_balance_write_is_banned.
  destruct (Db.get_user_balance db uid) as [bal |]; [| reflexivity].
  destruct (bal <? amt)%float; [reflexivity |].
  unfold write_is_banned, with_withdrawals, with_users. simpl.
  by rewrite (alter_swap (set_is_banned flag)).
Qed.

Lemma use_promo_code_write_is_banned db code uid :
  Db.use_promo_code (write_is_banned flag target db) code uid =
    (fst (Db.use_promo_code db code uid),
     write_is_banned flag target (snd (Db.use_promo_code db code uid))).
Proof.
  unfold Db.use_promo_code. simpl.
  destruct (promo_codes db !! code) as [promo |]; [| reflexivity].
  destruct (p_is_active promo); [| reflexivity].
  destruct (p_uses_left promo <=? 0); [reflexivity |].
  unfold write_is_banned, Db.update_balance, with_promo_codes, with_users.
  simpl. by rewrite (alter_swap (set_is_banned flag)).
Qed.
End ban_flag.

Lemma ban_after_unban (db : Database) (uid : Z) :
  write_is_banned true uid (Db.unban_user db uid) = Db.ban_user db uid.
Proof.
  unfold write_is_banned, Db.unban_user, Db.ban_user, with_users. simpl.
  f_equal. apply map_eq. intros j. rewrite !lookup_alter.
  repeat case_decide; try congruence; by destruct (users db !! uid).
Qed.

(** C3, as the code has it.  [add_gmail_submission], [add_withdrawal] and
    [use_promo_code] never read [is_banned]: called for a banned user each
    returns what it returns when the same user is not banned, and makes the
    same changes to the store, the flag itself staying set.  There is no
    Banned outcome. *)
Theorem banned_user_operations_proceed
    (db : Database) (uid : Z) (gmail password : string) (price : option float)
    (amt : float) (method num code : string) :
  let banned := Db.ban_user db uid in
  let clear := Db.unban_user db uid in
  Db.add_gmail_submission banned uid gmail password price =
    (fst (Db.add_gmail_submission clear uid gmail password price),
     Db.ban_user (snd (Db.add_gmail_submission clear uid gmail password price))
       uid)
  ∧ Db.add_withdrawal banned uid amt method num =
      (fst (Db.add_withdrawal clear uid amt method num),
       Db.ban_user (snd (Db.add_withdrawal clear uid amt method num)) uid)
  ∧ Db.use_promo_code banned code uid =
      (fst (Db.use_promo_code clear code uid),
       Db.ban_user (snd (Db.use_promo_code clear code uid)) uid).
Proof.
  intros banned clear. subst banned clear.
  rewrite <- ban_after_unban.
  split; [apply add_gmail_submission_write_is_banned |].
  split; [apply add_withdrawal_write_is_banned |
          apply use_promo_code_write_is_banned].
Qed.

(** C3 fails as stated: a banned user with balance 200 obtains a pending
    withdrawal of 150, has a submission stored and redeems a promo code. *)
Lemma banned_user_counterexample :
  let db :=
    mk_db (<[7 := mk_user "Mallory" (Some 200%float) 0 (Some 0%float)
                    false true None]> ∅) ∅ 0 ∅ 0
          (<["SAVE10" := mk_promo (Some 10%float) 1 true]> ∅)
          Db.default_settings in
  is_banned <$> Db.get_user db 7 = Some true
  ∧ Db.add_withdrawal db 7 150 "bKash" "017" =
      (Return (Some 1),
       mk_db (<[7 := mk_user "Mallory" (Some 50%float) 0 (Some 0%float)
                       false true None]> ∅) ∅ 0
             (<[1 := mk_withdrawal 7 (Some 150%float) "bKash" "017"
                       "pending"]> ∅) 1
             (promo_codes db) Db.default_settings)
  ∧ Db.add_gmail_submission db 7 "m@gmail.com" "pw" (Some 5%float) =
      (true,
       with_gmail_submissions
         (<[1 := mk_gmail 7 "m@gmail.com" "pw" (Some 5%float) "pending"
                   None]> ∅)
         1 db)
  ∧ Db.use_promo_code db "SAVE10" 7 =
      ((true, Db.PromoAdded (Some 10%float)),
       mk_db (<[7 := mk_user "Mallory" (Some 210%float) 0 (Some 0%float)
                       false true None]> ∅) ∅ 0 ∅ 0
             (<["SAVE10" := mk_promo (Some 10%float) 0 true]> ∅)
             Db.default_settings).
Proof. vm_compute. repeat split; reflexivity. Qed.

(** ** Settings *)

(** C7, as the code has it.  Reading a key that has no row returns [None]:
    [get_setting] substitutes no default.  The key goes on reading as
    [None] while other keys are written, and reads as a number only once
    [update_setting] has stored that very key, the number read being the
    one stored. *)
Theorem get_setting_absent_key_is_None (db : Database) (key : string) :
  settings db !! key = None →
  Db.get_setting db key = None
  ∧ (∀ other value,
       other ≠ key →
       Db.get_setting (Db.update_setting db other value) key = None)
  ∧ ∀ value,
      Db.get_setting (Db.update_setting db key value) key = Some value.
Proof.
  intros Hk. unfold Db.get_setting, Db.update_setting. simpl.
  split; [exact Hk |]. split.
  - intros other value Hne. by rewrite lookup_insert_ne.
  - intros value. apply lookup_insert_eq.
Qed.

Lemma get_setting_absent_key_is_None_witness :
  Db.get_setting Examples.db0 "daily_bonus" = None
  ∧ (∀ other value,
       other ≠ "daily_bonus" →
       Db.get_setting (Db.update_setting Examples.db0 other value)
         "daily_bonus" = None)
  ∧ ∀ value,
      Db.get_setting (Db.update_setting Examples.db0 "daily_bonus" value)
        "daily_bonus" = Some value.
Proof.
  apply (get_setting_absent_key_is_None Examples.db0 "daily_bonus").
  reflexivity.
Defined.

(** C7 fails as stated: on a store holding the four seeded rows the key
    ["daily_bonus"] has no row and reading it gives [None], not a number. *)
Lemma get_setting_absent_counterexample :
  settings Examples.db0 !! "daily_bonus" = None
  ∧ ¬ (∃ v : float, Db.get_setting Examples.db0 "daily_bonus" = Some v).
Proof.
  split; [reflexivity |]. intros [v Hv]. vm_compute in Hv. discriminate.
Qed.

(** A stored key reads as its value. *)
Lemma get_setting_present (db : Database) (key : string) (v : float) :
  settings db !! key = Some v → Db.get_setting db key = Some v.
Proof. intros Hk. exact Hk. Qed.

(** What a missing row does downstream: with no [daily_bonus_amount] row a
    first daily claim adds [None] to the balance, which becomes [NULL]. *)
Example missing_daily_bonus_amount_nulls_balance :
  let db := with_settings ∅ Examples.db0 in
  Db.get_user_balance db 7 = Some 200%float
  ∧ fst (Bot.show_daily_bonus db 7 1700000000000000) =
      Return (Bot.BonusClaimed None)
  ∧ Db.get_user_balance (snd (Bot.show_daily_bonus db 7 1700000000000000)) 7
    = None.
Proof. vm_compute. repeat split; reflexivity. Qed.

(** ** The withdraw conversation *)

(** The amount check compares with the literal 100 and with the balance,
    and reads no setting. *)
Lemma enter_withdraw_amount_settings_blind
    (db : Database) (ss : gmap string float) (uid : Z) (text : option float) :
  Bot.enter_withdraw_amount (with_settings ss db) uid text =
  Bot.enter_withdraw_amount db uid text.
Proof. reflexivity. Qed.

Lemma enter_withdraw_amount_accepts
    (db : Database) (uid : Z) (amt bal : float) :
  Db.get_user_balance db uid = Some bal →
  (Bot.enter_withdraw_amount db uid (Some amt) = Return (Some amt)
   ↔ (amt <? 100)%float = false ∧ (bal <? amt)%float = false).
Proof.
  intros Hbal. unfold Bot.enter_withdraw_amount. rewrite Hbal.
  destruct (amt <? 100)%float, (bal <? amt)%float;
    split; intros Hx; try discriminate; try (by destruct Hx); done.
Qed.

(** C5 (the code departs from the claim).  With [min_withdraw] set to 200
    and a balance of 300, the conversation accepts the amount 150 and
    [add_withdrawal] stores a pending withdrawal of 150: the handler
    compares with the literal 100 and nothing reads the setting. *)
Theorem withdraw_below_min_withdraw_is_created :
  let db :=
    Db.update_setting
      (mk_db (<[7 := mk_user "Alice" (Some 300%float) 0 (Some 0%float)
                      false false None]> ∅)
             ∅ 0 ∅ 0 ∅ Db.default_settings) "min_withdraw" 200 in
  Db.get_setting db "min_withdraw" = Some 200%float
  ∧ Bot.enter_withdraw_amount db 7 (Some 150%float) = Return (Some 150%float)
  ∧ Bot.withdraw_conversation db 7 (Some 150%float) "017" =
      (Return true,
       mk_db (<[7 := mk_user "Alice" (Some 150%float) 0 (Some 0%float)
                       false false None]> ∅)
             ∅ 0
             (<[1 := mk_withdrawal 7 (Some 150%float) "bKash" "017"
                       "pending"]> ∅) 1
             ∅ (settings db)).
Proof. vm_compute. repeat split; reflexivity. Qed.

(** ** The daily bonus *)

Lemma days_between_ge_1 (now last : datetime) :
  1 ≤ days_between now last ↔ last + 86400000000 ≤ now.
Proof.
  unfold days_between. split; intros Hd.
  - assert (Hm := Z.mul_div_le (now - last) 86400000000 ltac:(lia)). lia.
  - apply Z.div_le_lower_bound; lia.
Qed.

(** X22.  A user who never claimed is credited the amount the
    [daily_bonus_amount] row holds at that moment and the claim time is
    stored; no other row changes. *)
Lemma show_daily_bonus_first_claim
    (db : Database) (uid : Z) (u : user) (now : datetime) :
  users db !! uid = Some u →
  last_daily_claim u = None →
  Bot.show_daily_bonus db uid now =
    (Return (Bot.BonusClaimed (Db.get_setting db "daily_bonus_amount")),
     with_users
       (<[uid := set_last_daily_claim (Some (adapt_datetime now))
                   (set_balance
                      (sql_add (balance u)
                         (Db.get_setting db "daily_bonus_amount")) u)]>
          (users db)) db).
Proof.
  intros Hu Hlast. unfold Bot.show_daily_bonus, Db.get_user.
  rewrite Hu, Hlast. unfold Bot.claim_bonus, Db.update_balance. simpl.
  rewrite (alter_lookup_Some _ _ _ _ Hu), alter_insert_eq. reflexivity.
Qed.


(** X24.  When the stored claim time has a fractional second, every later call
    raises [ValueError] before it touches the store, however much time has
    gone by. *)
Lemma show_daily_bonus_fraction_raises
    (db : Database) (uid : Z) (u : user) (last now : datetime) :
  users db !! uid = Some u →
  last_daily_claim u = Some (IsoText last) →
  microsecond last ≠ 0 →
  Bot.show_daily_bonus db uid now = (Raise ValueError, db).
Proof.
  intros Hu Hlast Hmicro. unfold Bot.show_daily_bonus, Db.get_user.
  rewrite Hu, Hlast. simpl.
  destruct (Z.eqb_spec (microsecond last) 0); [contradiction | reflexivity].
Qed.

(** C8 (the code departs from the claim).  A first claim made at a time
    with a fractional second is credited (200 becomes 202) and stored with
    its fraction; a call 25 hours later, a whole day past the recorded
    claim, raises [ValueError] while parsing the stored text and credits
    nothing. *)
Theorem show_daily_bonus_next_day_raises :
  let t0 := 1700000000123456 in
  let first := Bot.show_daily_bonus Examples.db0 7 t0 in
  let second := Bot.show_daily_bonus (snd first) 7 (t0 + 90000000000) in
  fst first = Return (Bot.BonusClaimed (Some 2%float))
  ∧ Db.get_user_balance (snd first) 7 = Some 202%float
  ∧ 1 ≤ days_between (t0 + 90000000000) t0
  ∧ second = (Raise ValueError, snd first).
Proof. vm_compute. repeat split; try reflexivity. discriminate. Qed.

(** * Further properties of the ledger operations *)

(** ** Withdrawals: creation, review and the conversation *)

(** The accepting path of [add_withdrawal], spelled out: it is taken
    whenever [bal < amt] is false. *)
Lemma add_withdrawal_accepting_path
    (db : Database) (uid : Z) (amt bal : float) (u : user)
    (method num : string) :
  users db !! uid = Some u →
  balance u = Some bal →
  (bal <? amt)%float = false →
  Db.add_withdrawal db uid amt method num =
    (Return (Some (withdrawals_seq db + 1)),
     mk_db (<[uid := mk_user (first_name u) (sql_real (bal - amt)%float)
                       (gmail_sell_count u) (total_withdraw u)
                       (is_admin u) (is_banned u) (last_daily_claim u)]>
              (users db))
           (gmail_submissions db) (gmail_seq db)
           (<[withdrawals_seq db + 1 :=
                mk_withdrawal uid (sql_real amt) method num "pending"]>
              (withdrawals db))
           (withdrawals_seq db + 1) (promo_codes db) (settings db)).
Proof.
  intros Hu Hbal Hcmp. unfold Db.add_withdrawal, Db.get_user_balance.
  rewrite Hu, Hbal, Hcmp.
  by rewrite (alter_lookup_Some _ _ _ _ Hu), Hbal.
Qed.

Lemma user_eta (u : user) :
  mk_user (first_name u) (balance u) (gmail_sell_count u) (total_withdraw u)
          (is_admin u) (is_banned u) (last_daily_claim u) = u.
Proof. by destruct u. Qed.

(** X2.  [add_withdrawal] writes nothing but the caller's balance and the
    withdrawals table: every other user row, every [total_withdraw], the
    submissions, the promo codes and the settings are as before. *)
Theorem add_withdrawal_touches_only_caller
    (db : Database) (uid : Z) (amt : float) (method num : string) :
  let db' := snd (Db.add_withdrawal db uid amt method num) in
  (∀ other, other ≠ uid → users db' !! other = users db !! other)
  ∧ (∀ x, total_withdraw <$> users db' !! x = total_withdraw <$> users db !! x)
  ∧ (∀ x, is_banned <$> users db' !! x = is_banned <$> users db !! x)
  ∧ gmail_submissions db' = gmail_submissions db
  ∧ promo_codes db' = promo_codes db
  ∧ settings db' = settings db.
Proof.
  intros db'. subst db'. unfold Db.add_withdrawal.
  destruct (Db.get_user_balance db uid) as [bal |]; [| done].
  destruct (bal <? amt)%float; [done |]. simpl.
  split; [intros other Hne; by rewrite lookup_alter_ne |].
  split; [| split; [| done]]; intros x; rewrite lookup_alter;
    case_decide; subst; by destruct (users db !! _).
Qed.

(** X3.  Under the row id invariant a new withdrawal takes an id no stored
    withdrawal has: every stored row is still there, unchanged, and the
    invariant holds again afterwards. *)
Theorem add_withdrawal_keeps_stored_rows
    (db : Database) (uid : Z) (amt : float) (method num : string) :
  withdrawal_ids_bounded db →
  let db' := snd (Db.add_withdrawal db uid amt method num) in
  withdrawal_ids_bounded db'
  ∧ ∀ wid w, withdrawals db !! wid = Some w → withdrawals db' !! wid = Some w.
Proof.
  intros Hb db'. subst db'. unfold Db.add_withdrawal.
  destruct (Db.get_user_balance db uid) as [bal |]; [| done].
  destruct (bal <? amt)%float; [done |]. simpl. split.
  - intros wid w. simpl. rewrite lookup_insert.
    case_decide; [lia |]. intros Hw. apply Hb in Hw. lia.
  - intros wid w Hw. rewrite lookup_insert_ne; [exact Hw |].
    apply Hb in Hw. lia.
Qed.

Lemma add_withdrawal_keeps_stored_rows_witness :
  let db := snd (Db.add_withdrawal Examples.db0 7 50 "bKash" "017") in
  let db' := snd (Db.add_withdrawal db 7 60 "Nagad" "018") in
  withdrawal_ids_bounded db'
  ∧ ∀ wid w, withdrawals db !! wid = Some w → withdrawals db' !! wid = Some w.
Proof.
  intros db.
  apply (add_withdrawal_keeps_stored_rows db 7 60 "Nagad" "018").
  intros wid w.
  change (withdrawals db)
    with (<[1 := mk_withdrawal 7 (Some 50%float) "bKash" "017" "pending"]>
            (∅ : gmap Z withdrawal)).
  change (withdrawals_seq db) with 1.
  rewrite lookup_insert. case_decide; [lia |]. rewrite lookup_empty.
  discriminate.
Defined.

(** X4.  A rejection refunds what the reservation took: after creating a
    withdrawal that the balance covers and rejecting it, the only change to
    the users table is the owner's balance, now the difference of doubles
    [bal - amt] with [amt] added back, and the row is kept as [rejected].
    Whenever that sum is [bal] again the users table is exactly what it was
    before the request. *)
Theorem withdrawal_rejection_refunds
    (db : Database) (uid : Z) (amt bal : float) (u : user)
    (method num : string) :
  users db !! uid = Some u →
  balance u = Some bal →
  (amt <=? bal)%float = true →
  let wid := withdrawals_seq db + 1 in
  let created := Db.add_withdrawal db uid amt method num in
  let reviewed := Db.update_withdrawal_status (snd created) wid "rejected" in
  fst created = Return (Some wid)
  ∧ fst reviewed = true
  ∧ users (snd reviewed) =
      <[uid := mk_user (first_name u)
                 (sql_add (sql_real (bal - amt)%float) (Some amt))
                 (gmail_sell_count u) (total_withdraw u)
                 (is_admin u) (is_banned u) (last_daily_claim u)]> (users db)
  ∧ withdrawals (snd reviewed) !! wid =
      Some (mk_withdrawal uid (Some amt) method num "rejected")
  ∧ (sql_add (sql_real (bal - amt)%float) (Some amt) = Some bal →
     users (snd reviewed) = users db).
Proof.
  intros Hu Hbal Hle wid created reviewed. subst wid created reviewed.
  rewrite (add_withdrawal_accepting_path _ _ _ _ _ _ _ Hu Hbal
             (leb_not_ltb _ _ Hle)), (leb_is_number _ _ Hle).
  unfold Db.update_withdrawal_status, Db.get_withdrawal_by_id. simpl.
  rewrite lookup_insert_eq. simpl. rewrite !alter_insert_eq. simpl.
  split; [reflexivity |]. split; [reflexivity |]. split; [reflexivity |].
  split; [by rewrite lookup_insert_eq |].
  intros Hexact.
  change (<[uid := mk_user (first_name u)
                     (sql_add (sql_real (bal - amt)%float) (Some amt))
                     (gmail_sell_count u) (total_withdraw u)
                     (is_admin u) (is_banned u) (last_daily_claim u)]>
            (users db) = users db).
  rewrite Hexact, <- Hbal, user_eta. by apply insert_id.
Qed.

Lemma withdrawal_rejection_refunds_witness :
  let created := Db.add_withdrawal Examples.db0 7 150 "bKash" "017" in
  let reviewed := Db.update_withdrawal_status (snd created) 1 "rejected" in
  fst created = Return (Some 1)
  ∧ fst reviewed = true
  ∧ users (snd reviewed) =
      <[7 := mk_user "Alice" (Some 200%float) 0 (Some 0%float)
               false false None]> (users Examples.db0)
  ∧ withdrawals (snd reviewed) !! 1 =
      Some (mk_withdrawal 7 (Some 150%float) "bKash" "017" "rejected")
  ∧ (Some 200%float = Some 200%float →
     users (snd reviewed) = users Examples.db0).
Proof.
  apply (withdrawal_rejection_refunds Examples.db0 7 150 200
           Examples.alice "bKash" "017"); reflexivity.
Defined.

(** The refund is a sum of doubles and need not give the old balance back:
    460.57 less 111.03 plus 111.03 is not 460.57. *)
#[local] Set Warnings "-inexact-float".
Example withdrawal_rejection_rounds :
  let db :=
    mk_db (<[7 := mk_user "Alice" (Some 460.57%float) 0 (Some 0%float)
                    false false None]> ∅) ∅ 0 ∅ 0 ∅ ∅ in
  let created := Db.add_withdrawal db 7 111.03 "bKash" "017" in
  let reviewed := Db.update_withdrawal_status (snd created) 1 "rejected" in
  Db.get_user_balance (snd reviewed) 7 =
    Some (460.57 - 111.03 + 111.03)%float
  ∧ (460.57 - 111.03 + 111.03)%float ≠ 460.57%float.
Proof. vm_compute. split; [reflexivity | discriminate]. Qed.

(** X5.  Paying a reserved withdrawal leaves the balance at the reserved
    level and adds the amount to the owner's [total_withdraw]. *)
Theorem withdrawal_approval_pays_out
    (db : Database) (uid : Z) (amt bal : float) (u : user)
    (method num : string) :
  users db !! uid = Some u →
  balance u = Some bal →
  (amt <=? bal)%float = true →
  let wid := withdrawals_seq db + 1 in
  let created := Db.add_withdrawal db uid amt method num in
  let reviewed := Db.update_withdrawal_status (snd created) wid "success" in
  fst reviewed = true
  ∧ users (snd reviewed) =
      <[uid := mk_user (first_name u) (sql_real (bal - amt)%float)
                 (gmail_sell_count u)
                 (sql_add (total_withdraw u) (Some amt))
                 (is_admin u) (is_banned u) (last_daily_claim u)]> (users db)
  ∧ withdrawals (snd reviewed) !! wid =
      Some (mk_withdrawal uid (Some amt) method num "success").
Proof.
  intros Hu Hbal Hle wid created reviewed. subst wid created reviewed.
  rewrite (add_withdrawal_accepting_path _ _ _ _ _ _ _ Hu Hbal
             (leb_not_ltb _ _ Hle)), (leb_is_number _ _ Hle).
  unfold Db.update_withdrawal_status, Db.get_withdrawal_by_id. simpl.
  rewrite lookup_insert_eq. simpl.
  split; [reflexivity |]. split.
  - by rewrite alter_insert_eq.
  - by rewrite alter_insert_eq, lookup_insert_eq.
Qed.

Lemma withdrawal_approval_pays_out_witness :
  let created := Db.add_withdrawal Examples.db0 7 150 "bKash" "017" in
  let reviewed := Db.update_withdrawal_status (snd created) 1 "success" in
  fst reviewed = true
  ∧ users (snd reviewed) =
      <[7 := mk_user "Alice" (Some 50%float) 0 (Some 150%float)
               false false None]> (users Examples.db0)
  ∧ withdrawals (snd reviewed) !! 1 =
      Some (mk_withdrawal 7 (Some 150%float) "bKash" "017" "success").
Proof.
  apply (withdrawal_approval_pays_out Examples.db0 7 150 200
           Examples.alice "bKash" "017"); reflexivity.
Defined.

(** X6.  For a user id with no row the balance reads as 0: a positive
    amount is refused and nothing changes, while any other amount (zero,
    negative, or not a number) is accepted and stores a pending withdrawal
    that belongs to nobody, the users table staying as it was. *)
Theorem add_withdrawal_unknown_user
    (db : Database) (uid : Z) (amt : float) (method num : string) :
  users db !! uid = None →
  Db.add_withdrawal db uid amt method num =
    if (0 <? amt)%float then (Return None, db)
    else
      (Return (Some (withdrawals_seq db + 1)),
       with_withdrawals
         (<[withdrawals_seq db + 1 :=
              mk_withdrawal uid (sql_real amt) method num "pending"]>
            (withdrawals db))
         (withdrawals_seq db + 1) db).
Proof.
  intros Hu. unfold Db.add_withdrawal, Db.get_user_balance. rewrite Hu.
  destruct (0 <? amt)%float; [reflexivity |].
  by rewrite (alter_lookup_None _ _ _ Hu).
Qed.

Lemma add_withdrawal_unknown_user_witness :
  Db.add_withdrawal Examples.db0 99 0 "bKash" "017" =
    (Return (Some 1),
     with_withdrawals
       (<[1 := mk_withdrawal 99 (Some 0%float) "bKash" "017" "pending"]> ∅)
       1 Examples.db0).
Proof.
  apply (add_withdrawal_unknown_user Examples.db0 99 0 "bKash" "017").
  reflexivity.
Defined.

(** X7.  The withdraw conversation, for a stored user with a numeric balance
    and a message that [float()] reads: it answers "Invalid Amount" and
    leaves the store alone exactly when [amt < 100] or [amt > bal] holds,
    and otherwise reserves the amount and stores a pending "bKash"
    withdrawal.  "Otherwise" is every number from 100 up to the balance,
    and also NaN, for which no comparison holds. *)
Theorem withdraw_conversation_accepts_iff
    (db : Database) (uid : Z) (amt bal : float) (u : user) (number : string) :
  users db !! uid = Some u →
  balance u = Some bal →
  Bot.withdraw_conversation db uid (Some amt) number =
    if ((amt <? 100) || (bal <? amt))%float then (Return false, db)
    else
      (Return true,
       mk_db (<[uid := mk_user (first_name u) (sql_real (bal - amt)%float)
                         (gmail_sell_count u) (total_withdraw u)
                         (is_admin u) (is_banned u) (last_daily_claim u)]>
                (users db))
             (gmail_submissions db) (gmail_seq db)
             (<[withdrawals_seq db + 1 :=
                  mk_withdrawal uid (sql_real amt) "bKash" number "pending"]>
                (withdrawals db))
             (withdrawals_seq db + 1) (promo_codes db) (settings db)).
Proof.
  intros Hu Hbal.
  unfold Bot.withdraw_conversation, Bot.enter_withdraw_amount.
  assert (Hgb : Db.get_user_balance db uid = Some bal)
    by (unfold Db.get_user_balance; by rewrite Hu).
  rewrite Hgb.
  destruct (amt <? 100)%float; [reflexivity |].
  destruct (bal <? amt)%float eqn:Hcmp; [reflexivity |]. simpl.
  unfold Bot.enter_withdraw_number.
  by rewrite (add_withdrawal_accepting_path _ _ _ _ _ _ _ Hu Hbal Hcmp).
Qed.

Lemma withdraw_conversation_accepts_iff_witness :
  Bot.withdraw_conversation Examples.db0 7 (Some 150%float) "017" =
    (Return true,
     mk_db (<[7 := mk_user "Alice" (Some 50%float) 0 (Some 0%float)
                     false false None]> (users Examples.db0))
           ∅ 0
           (<[1 := mk_withdrawal 7 (Some 150%float) "bKash" "017" "pending"]>
              ∅)
           1 ∅ Db.default_settings)
  ∧ Bot.withdraw_conversation Examples.db0 7 (Some 50%float) "017" =
      (Return false, Examples.db0)
  ∧ Bot.withdraw_conversation Examples.db0 7 (Some nan) "017" =
      (Return true,
       mk_db (<[7 := mk_user "Alice" None 0 (Some 0%float) false false None]>
                (users Examples.db0))
             ∅ 0 (<[1 := mk_withdrawal 7 None "bKash" "017" "pending"]> ∅)
             1 ∅ Db.default_settings).
Proof.
  split; [| split].
  - apply (withdraw_conversation_accepts_iff Examples.db0 7 150 200
             Examples.alice "017"); reflexivity.
  - apply (withdraw_conversation_accepts_iff Examples.db0 7 50 200
             Examples.alice "017"); reflexivity.
  - apply (withdraw_conversation_accepts_iff Examples.db0 7 nan 200
             Examples.alice "017"); reflexivity.
Defined.
(** ** Submissions: the unique address, review transitions, the snapshot *)

Lemma gmail_taken_true (db : Database) (gmail : string) :
  Db.gmail_taken db gmail = true ↔
  ∃ gid g, gmail_submissions db !! gid = Some g ∧ g_gmail g = gmail.
Proof. unfold Db.gmail_taken. rewrite bool_decide_eq_true. reflexivity. Qed.

Lemma gmail_taken_false (db : Database) (gmail : string) :
  Db.gmail_taken db gmail = false ↔
  ∀ gid g, gmail_submissions db !! gid = Some g → g_gmail g ≠ gmail.
Proof.
  unfold Db.gmail_taken. rewrite bool_decide_eq_false. split.
  - intros Hno gid g Hg Heq. apply Hno. by exists gid, g.
  - intros Hall (gid & g & Hg & Heq). by apply (Hall gid g).
Qed.

(** X8.  An address is accepted once: after a submission is stored, a
    further submission of the same address, by any user and with any
    password or price, returns [False] and changes nothing. *)
Theorem add_gmail_submission_refuses_duplicate
    (db : Database) (uid : Z) (gmail password : string)
    (amount : option float) :
  Db.gmail_taken db gmail = false →
  let first := Db.add_gmail_submission db uid gmail password amount in
  fst first = true
  ∧ ∀ uid' password' amount',
      Db.add_gmail_submission (snd first) uid' gmail password' amount' =
        (false, snd first).
Proof.
  intros Hfree first. subst first.
  assert (Hfirst :
    Db.add_gmail_submission db uid gmail password amount =
      (true,
       with_gmail_submissions
         (<[gmail_seq db + 1 :=
              mk_gmail uid gmail password (sql_bind amount) "pending" None]>
            (gmail_submissions db)) (gmail_seq db + 1) db))
    by (unfold Db.add_gmail_submission; by rewrite Hfree).
  rewrite Hfirst. simpl. split; [reflexivity |].
  intros uid' password' amount'. unfold Db.add_gmail_submission.
  replace (Db.gmail_taken _ gmail) with true; [reflexivity |].
  symmetry. apply gmail_taken_true.
  eexists _, _. split; [apply lookup_insert_eq | reflexivity].
Qed.

Lemma add_gmail_submission_refuses_duplicate_witness :
  let first :=
    Db.add_gmail_submission Examples.db0 7 "a@gmail.com" "pw"
      (Some 5%float) in
  fst first = true
  ∧ ∀ uid' password' amount',
      Db.add_gmail_submission (snd first) uid' "a@gmail.com" password' amount'
        = (false, snd first).
Proof.
  apply (add_gmail_submission_refuses_duplicate Examples.db0 7 "a@gmail.com"
           "pw" (Some 5%float)).
  vm_compute. reflexivity.
Defined.

(** X9.  [add_gmail_submission] keeps the table well formed: if no two rows
    share an address and no row id exceeds the sequence counter, the same
    holds after the call, whether it stored a row or refused. *)
Theorem add_gmail_submission_keeps_unique
    (db : Database) (uid : Z) (gmail password : string)
    (amount : option float) :
  gmail_ids_bounded db →
  gmail_unique db →
  let db' := snd (Db.add_gmail_submission db uid gmail password amount) in
  gmail_ids_bounded db' ∧ gmail_unique db'.
Proof.
  intros Hb Hu db'. subst db'. unfold Db.add_gmail_submission.
  destruct (Db.gmail_taken db gmail) eqn:Htaken; [done |].
  rewrite gmail_taken_false in Htaken. simpl. split.
  - intros gid g. simpl. rewrite lookup_insert.
    case_decide; [lia |]. intros Hg. apply Hb in Hg. lia.
  - intros i j gi gj. simpl. rewrite !lookup_insert.
    repeat case_decide; subst; intros Hi Hj Heq; simplify_eq; simpl in *.
    + reflexivity.
    + by destruct (Htaken j gj Hj).
    + by destruct (Htaken i gi Hi).
    + by apply (Hu i j gi gj).
Qed.

Lemma add_gmail_submission_keeps_unique_witness :
  let db :=
    mk_db ∅
      (<[1 := mk_gmail 7 "a@gmail.com" "pw" (Some 5%float) "pending" None]> ∅)
      1 ∅ 0 ∅ Db.default_settings in
  (gmail_ids_bounded
     (snd (Db.add_gmail_submission db 8 "b@gmail.com" "pw" (Some 5%float)))
   ∧ gmail_unique
       (snd (Db.add_gmail_submission db 8 "b@gmail.com" "pw" (Some 5%float))))
  ∧ gmail_submissions
      (snd (Db.add_gmail_submission db 8 "b@gmail.com" "pw" (Some 5%float)))
    = <[2 := mk_gmail 8 "b@gmail.com" "pw" (Some 5%float) "pending" None]>
        (gmail_submissions db)
  ∧ gmail_unique
      (snd (Db.add_gmail_submission db 8 "a@gmail.com" "pw" (Some 5%float))).
Proof.
  intros db.
  assert (Hbounded : gmail_ids_bounded db).
  { intros gid g. simpl. rewrite lookup_insert.
    case_decide; [intros _; lia | by rewrite lookup_empty]. }
  assert (Hunique : gmail_unique db).
  { intros i j gi gj. simpl. rewrite !lookup_insert.
    repeat case_decide; rewrite ?lookup_empty; congruence. }
  split; [| split].
  - apply (add_gmail_submission_keeps_unique db 8 "b@gmail.com" "pw"
             (Some 5%float) Hbounded Hunique).
  - vm_compute. reflexivity.
  - apply (add_gmail_submission_keeps_unique db 8 "a@gmail.com" "pw"
             (Some 5%float) Hbounded Hunique).
Defined.

(** X10.  A transition that is neither an approval nor the rejection of a
    [success] row has no ledger effect: putting a row back to [pending],
    rejecting a [pending] or [rejected] row, or writing any other status
    text only rewrites the row's status and reason. *)
Theorem update_gmail_status_without_ledger_effect
    (db : Database) (gid : Z) (g : gmail_submission) (status : string)
    (reason : option string) :
  gmail_submissions db !! gid = Some g →
  status ≠ "success" →
  status ≠ "rejected" ∨ g_status g ≠ "success" →
  Db.update_gmail_status db gid status reason =
    (Return true,
     with_gmail_submissions
       (<[gid := set_g_status status reason g]> (gmail_submissions db))
       (gmail_seq db) db).
Proof.
  intros Hg Hns Hnr. unfold Db.update_gmail_status, Db.get_gmail_by_id.
  rewrite Hg, (alter_lookup_Some _ _ _ _ Hg).
  apply String.eqb_neq in Hns. rewrite Hns.
  destruct Hnr as [Hnr | Hnr]; apply String.eqb_neq in Hnr; rewrite Hnr;
    [reflexivity | by rewrite andb_false_r].
Qed.

Lemma update_gmail_status_without_ledger_effect_witness :
  let db :=
    mk_db (<[7 := mk_user "Alice" (Some 5%float) 1 (Some 0%float) false false None]> ∅)
          (<[1 := mk_gmail 7 "a@gmail.com" "pw" (Some 5%float) "success" None]> ∅)
          1 ∅ 0 ∅ Db.default_settings in
  Db.update_gmail_status db 1 "pending" None =
    (Return true,
     with_gmail_submissions
       (<[1 := mk_gmail 7 "a@gmail.com" "pw" (Some 5%float) "pending" None]>
          (gmail_submissions db)) 1 db).
Proof.
  intros db.
  apply (update_gmail_status_without_ledger_effect db 1
           (mk_gmail 7 "a@gmail.com" "pw" (Some 5%float) "success" None)
           "pending" None); [reflexivity | discriminate | left; discriminate].
Defined.

(** X11.  Approval followed by rejection undoes the credit: for a row with
    a numeric amount whose owner has a numeric balance, [gmail_sell_count]
    is back at its old value, the balance is the sum of doubles [b + a] with
    [-a] added, no other column and no other user changes, and the row ends
    [rejected] with the given reason.  Whenever that sum is [b] again the
    users table is exactly what it was. *)
Theorem approve_then_reject_undoes_credit
    (db : Database) (gid : Z) (a b : float) (g : gmail_submission) (u : user)
    (reason : option string) :
  gmail_submissions db !! gid = Some g →
  g_amount g = Some a →
  users db !! g_user_id g = Some u →
  balance u = Some b →
  let approved := Db.update_gmail_status db gid "success" None in
  let rejected :=
    Db.update_gmail_status (snd approved) gid "rejected" reason in
  fst approved = Return true
  ∧ fst rejected = Return true
  ∧ users (snd rejected) =
      <[g_user_id g :=
          mk_user (first_name u)
            (sql_add (sql_real (b + a)%float) (Some (- a)%float))
            (gmail_sell_count u) (total_withdraw u)
            (is_admin u) (is_banned u) (last_daily_claim u)]> (users db)
  ∧ gmail_submissions (snd rejected) !! gid =
      Some (mk_gmail (g_user_id g) (g_gmail g) (g_password g) (Some a)
              "rejected" reason)
  ∧ (sql_add (sql_real (b + a)%float) (Some (- a)%float) = Some b →
     users (snd rejected) = users db).
Proof.
  intros Hg Ha Hu Hb approved rejected. subst approved rejected.
  assert (Happroved :
    Db.update_gmail_status db gid "success" None =
      (Return true,
       mk_db (<[g_user_id g :=
                set_gmail_sell_count (gmail_sell_count u + 1)
                  (set_balance (sql_real (b + a)%float) u)]> (users db))
             (<[gid := set_g_status "success" None g]> (gmail_submissions db))
             (gmail_seq db) (withdrawals db) (withdrawals_seq db)
             (promo_codes db) (settings db))).
  { unfold Db.update_gmail_status, Db.get_gmail_by_id. rewrite Hg. simpl.
    unfold Db.bump_gmail_sell_count, Db.update_balance, with_users,
      with_gmail_submissions. simpl.
    rewrite (alter_lookup_Some _ _ _ _ Hg), (alter_lookup_Some _ _ _ _ Hu).
    by rewrite alter_insert_eq, Ha, Hb. }
  rewrite Happroved. simpl.
  unfold Db.update_gmail_status, Db.get_gmail_by_id. simpl.
  rewrite lookup_insert_eq. simpl. rewrite Ha. simpl.
  assert (Husers :
    alter (λ u0, set_gmail_sell_count (gmail_sell_count u0 + -1) u0)
      (g_user_id g)
      (alter (λ u0, set_balance
                      (sql_add (balance u0) (Some (- a)%float)) u0)
         (g_user_id g)
         (<[g_user_id g :=
              set_gmail_sell_count (gmail_sell_count u + 1)
                (set_balance (sql_real (b + a)%float) u)]> (users db))) =
    <[g_user_id g :=
        mk_user (first_name u)
          (sql_add (sql_real (b + a)%float) (Some (- a)%float))
          (gmail_sell_count u) (total_withdraw u)
          (is_admin u) (is_banned u) (last_daily_claim u)]> (users db)).
  { rewrite !alter_insert_eq. f_equal.
    unfold set_gmail_sell_count, set_balance. simpl. f_equal. lia. }
  split; [reflexivity |]. split; [reflexivity |].
  split; [exact Husers |]. split.
  - rewrite alter_insert_eq, lookup_insert_eq.
    unfold set_g_status. simpl. by rewrite Ha.
  - intros Hexact. rewrite Husers, Hexact, <- Hb, user_eta.
    by apply insert_id.
Qed.

Lemma approve_then_reject_undoes_credit_witness :
  let db :=
    mk_db (<[7 := mk_user "Alice" (Some 3%float) 0 (Some 0%float)
                    false false None]> ∅)
          (<[1 := mk_gmail 7 "a@gmail.com" "pw" (Some 5%float) "pending"
                    None]> ∅)
          1 ∅ 0 ∅ Db.default_settings in
  let approved := Db.update_gmail_status db 1 "success" None in
  let rejected :=
    Db.update_gmail_status (snd approved) 1 "rejected" (Some "bad") in
  fst approved = Return true
  ∧ fst rejected = Return true
  ∧ users (snd rejected) =
      <[7 := mk_user "Alice" (Some 3%float) 0 (Some 0%float)
               false false None]> (users db)
  ∧ gmail_submissions (snd rejected) !! 1 =
      Some (mk_gmail 7 "a@gmail.com" "pw" (Some 5%float) "rejected"
              (Some "bad"))
  ∧ (Some 3%float = Some 3%float → users (snd rejected) = users db).
Proof.
  intros db.
  apply (approve_then_reject_undoes_credit db 1 5 3
           (mk_gmail 7 "a@gmail.com" "pw" (Some 5%float) "pending" None)
           (mk_user "Alice" (Some 3%float) 0 (Some 0%float) false false None)
           (Some "bad"));
    reflexivity.
Defined.

(** The undo is a sum of doubles too: a balance of 0.1 credited and debited
    by 0.2 does not come back to 0.1. *)
Example approve_then_reject_rounds :
  let db :=
    mk_db (<[7 := mk_user "Alice" (Some 0.1%float) 0 (Some 0%float)
                    false false None]> ∅)
          (<[1 := mk_gmail 7 "a@gmail.com" "pw" (Some 0.2%float) "pending"
                    None]> ∅)
          1 ∅ 0 ∅ ∅ in
  let approved := Db.update_gmail_status db 1 "success" None in
  let rejected := Db.update_gmail_status (snd approved) 1 "rejected" None in
  Db.get_user_balance (snd rejected) 7 = Some (0.1 + 0.2 + - 0.2)%float
  ∧ (0.1 + 0.2 + - 0.2)%float ≠ 0.1%float.
Proof. vm_compute. split; [reflexivity | discriminate]. Qed.

(** X12.  Rejecting a [success] row whose amount is [NULL] raises
    [TypeError] at the negation, after the row has already been rewritten:
    the status reads [rejected] while no balance and no counter moved. *)
Theorem reject_null_amount_raises_after_write
    (db : Database) (gid : Z) (g : gmail_submission)
    (reason : option string) :
  gmail_submissions db !! gid = Some g →
  g_status g = "success" →
  g_amount g = None →
  Db.update_gmail_status db gid "rejected" reason =
    (Raise TypeError,
     with_gmail_submissions
       (<[gid := set_g_status "rejected" reason g]> (gmail_submissions db))
       (gmail_seq db) db).
Proof.
  intros Hg Hst Ha. unfold Db.update_gmail_status, Db.get_gmail_by_id.
  rewrite Hg, Hst, Ha, (alter_lookup_Some _ _ _ _ Hg). reflexivity.
Qed.

Lemma reject_null_amount_raises_after_write_witness :
  let db :=
    mk_db ∅ (<[1 := mk_gmail 7 "a@gmail.com" "pw" None "success" None]> ∅)
          1 ∅ 0 ∅ ∅ in
  Db.update_gmail_status db 1 "rejected" None =
    (Raise TypeError,
     with_gmail_submissions
       (<[1 := mk_gmail 7 "a@gmail.com" "pw" None "rejected" None]>
          (gmail_submissions db)) 1 db).
Proof.
  intros db.
  apply (reject_null_amount_raises_after_write db 1
           (mk_gmail 7 "a@gmail.com" "pw" None "success" None) None);
    reflexivity.
Defined.

(** X13.  No review transition touches what was submitted: whatever the id,
    status and reason, every row keeps its owner, address, password and
    amount, no row appears or disappears, and the sequence counter stays. *)
Theorem update_gmail_status_keeps_submitted_data
    (db : Database) (gid : Z) (status : string) (reason : option string)
    (i : Z) :
  let db' := snd (Db.update_gmail_status db gid status reason) in
  (λ g, (g_user_id g, g_gmail g, g_password g, g_amount g))
     <$> gmail_submissions db' !! i =
  (λ g, (g_user_id g, g_gmail g, g_password g, g_amount g))
     <$> gmail_submissions db !! i
  ∧ gmail_seq db' = gmail_seq db.
Proof.
  intros db'. subst db'. unfold Db.update_gmail_status, Db.get_gmail_by_id.
  destruct (gmail_submissions db !! gid) as [g |] eqn:Hg; [| done].
  assert (Hrow :
    (λ g, (g_user_id g, g_gmail g, g_password g, g_amount g))
      <$> alter (set_g_status status reason) gid (gmail_submissions db) !! i =
    (λ g, (g_user_id g, g_gmail g, g_password g, g_amount g))
      <$> gmail_submissions db !! i).
  { rewrite lookup_alter. case_decide; [subst |]; [| done].
    by destruct (gmail_submissions db !! i). }
  destruct (String.eqb status "success"); [done |].
  destruct (String.eqb status "rejected" && String.eqb (g_status g) "success");
    [| done].
  by destruct (Db.py_neg (g_amount g)).
Qed.

Lemma enter_password_snapshots_price_witness :
  gmail_submissions (Bot.enter_password Examples.db0 7 "a@gmail.com" "pw")
    !! 1 = Some (mk_gmail 7 "a@gmail.com" "pw" (Some 5%float) "pending" None).
Proof.
  apply (enter_password_snapshots_price Examples.db0 7 "a@gmail.com" "pw").
  vm_compute. reflexivity.
Defined.

(** ** Promo codes: creation and the use limit *)

(** The accepting path of [use_promo_code], spelled out. *)
Lemma use_promo_code_accepting_path
    (db : Database) (code : string) (uid : Z) (promo : promo_code) :
  promo_codes db !! code = Some promo →
  p_is_active promo = true →
  1 ≤ p_uses_left promo →
  Db.use_promo_code db code uid =
    ((true, Db.PromoAdded (p_amount promo)),
     mk_db (alter (λ u, set_balance (sql_add (balance u) (p_amount promo)) u)
                  uid (users db))
           (gmail_submissions db) (gmail_seq db) (withdrawals db)
           (withdrawals_seq db)
           (<[code := set_p_uses_left (p_uses_left promo - 1) promo]>
              (promo_codes db))
           (settings db)).
Proof.
  intros Hp Hact Huses. unfold Db.use_promo_code. rewrite Hp, Hact.
  destruct (Z.leb_spec (p_uses_left promo) 0); [lia |].
  unfold Db.update_balance. simpl.
  by rewrite (alter_lookup_Some _ _ _ _ Hp).
Qed.




(** X15.  The use limit is exact over any run of redemptions, whoever the
    redeemers are and however often the same user comes back: of [n] calls
    on an active code with [k] uses left, the first [min k n] succeed and
    the rest are refused, and the code ends with [k] minus the number of
    successes. *)
Theorem redeem_each_honours_limit
    (uids : list Z) (db : Database) (code : string) (promo : promo_code) :
  promo_codes db !! code = Some promo →
  p_is_active promo = true →
  let k := Z.to_nat (p_uses_left promo) in
  let n := length uids in
  let r := redeem_each db code uids in
  fst r = replicate (k `min` n) true ++ replicate (n - k) false
  ∧ promo_codes (snd r) !! code =
      Some (set_p_uses_left (p_uses_left promo - Z.of_nat (k `min` n)) promo).
Proof.
  revert db promo. induction uids as [| uid rest IH]; intros db promo Hp Hact.
  - simpl. rewrite Nat.min_0_r. simpl. split; [reflexivity |].
    rewrite Hp. f_equal. destruct promo; unfold set_p_uses_left; simpl.
    f_equal. lia.
  - cbn zeta. simpl redeem_each. simpl length.
    destruct (Z.le_gt_cases 1 (p_uses_left promo)) as [Hpos | Hzero].
    + rewrite (use_promo_code_accepting_path _ _ uid _ Hp Hact Hpos). simpl.
      specialize (IH
        (mk_db (alter (λ u, set_balance
                              (sql_add (balance u) (p_amount promo)) u)
                      uid (users db))
               (gmail_submissions db) (gmail_seq db) (withdrawals db)
               (withdrawals_seq db)
               (<[code := set_p_uses_left (p_uses_left promo - 1) promo]>
                  (promo_codes db))
               (settings db))
        (set_p_uses_left (p_uses_left promo - 1) promo)
        (lookup_insert_eq _ _ _) Hact).
      cbn zeta in IH. simpl p_uses_left in IH. destruct IH as [IHr IHp].
      rewrite IHr, IHp.
      replace (Z.to_nat (p_uses_left promo))
        with (S (Z.to_nat (p_uses_left promo - 1))) by lia.
      simpl. split; [reflexivity |].
      f_equal. unfold set_p_uses_left. simpl. f_equal. lia.
    + assert (Hrefused :
        Db.use_promo_code db code uid = ((false, Db.CodeExpired), db)).
      { unfold Db.use_promo_code. rewrite Hp, Hact.
        destruct (Z.leb_spec (p_uses_left promo) 0); [reflexivity | lia]. }
      rewrite Hrefused. simpl.
      specialize (IH db promo Hp Hact). cbn zeta in IH.
      destruct IH as [IHr IHp]. rewrite IHr, IHp.
      replace (Z.to_nat (p_uses_left promo)) with 0%nat by lia.
      simpl. rewrite Nat.sub_0_r. split; reflexivity.
Qed.

Lemma redeem_each_honours_limit_witness :
  let db :=
    with_promo_codes (<["SAVE10" := mk_promo (Some 10%float) 2 true]> ∅)
      Examples.db0 in
  let r := redeem_each db "SAVE10" [7; 99; 7] in
  fst r = [true; true; false]
  ∧ promo_codes (snd r) !! "SAVE10" = Some (mk_promo (Some 10%float) 0 true).
Proof.
  intros db.
  apply (redeem_each_honours_limit [7; 99; 7] db "SAVE10"
           (mk_promo (Some 10%float) 2 true)); reflexivity.
Defined.

(** X16.  A successful redemption adds the amount the code's row holds to
    the redeemer's balance and to nobody else's, takes one use off the code
    and leaves every other code alone; when the row holds [NULL] the
    balance is [NULL] afterwards. *)
Theorem use_promo_code_credits_redeemer
    (db : Database) (code : string) (uid : Z) (b : float)
    (promo : promo_code) (u : user) :
  promo_codes db !! code = Some promo →
  p_is_active promo = true →
  1 ≤ p_uses_left promo →
  users db !! uid = Some u →
  balance u = Some b →
  Db.use_promo_code db code uid =
    ((true, Db.PromoAdded (p_amount promo)),
     mk_db (<[uid := mk_user (first_name u) (sql_add (Some b) (p_amount promo))
                       (gmail_sell_count u) (total_withdraw u)
                       (is_admin u) (is_banned u) (last_daily_claim u)]>
              (users db))
           (gmail_submissions db) (gmail_seq db) (withdrawals db)
           (withdrawals_seq db)
           (<[code := mk_promo (p_amount promo) (p_uses_left promo - 1)
                        (p_is_active promo)]> (promo_codes db))
           (settings db)).
Proof.
  intros Hp Hact Huses Hu Hb.
  rewrite (use_promo_code_accepting_path _ _ uid _ Hp Hact Huses).
  by rewrite (alter_lookup_Some _ _ _ _ Hu), Hb.
Qed.

Lemma use_promo_code_credits_redeemer_witness :
  (let db :=
     with_promo_codes (<["SAVE10" := mk_promo (Some 10%float) 1 true]> ∅)
       Examples.db0 in
   Db.use_promo_code db "SAVE10" 7 =
     ((true, Db.PromoAdded (Some 10%float)),
      mk_db (<[7 := mk_user "Alice" (Some 210%float) 0 (Some 0%float)
                      false false None]> (users db))
            ∅ 0 ∅ 0
            (<["SAVE10" := mk_promo (Some 10%float) 0 true]> (promo_codes db))
            Db.default_settings))
  ∧ (let db :=
       with_promo_codes (<["VOID" := mk_promo None 1 true]> ∅)
         Examples.db0 in
     Db.use_promo_code db "VOID" 7 =
       ((true, Db.PromoAdded None),
        mk_db (<[7 := mk_user "Alice" None 0 (Some 0%float)
                        false false None]> (users db))
              ∅ 0 ∅ 0 (<["VOID" := mk_promo None 0 true]> (promo_codes db))
              Db.default_settings)).
Proof.
  split; intros db.
  - apply (use_promo_code_credits_redeemer db "SAVE10" 7 200
             (mk_promo (Some 10%float) 1 true) Examples.alice);
      [reflexivity | reflexivity | simpl; lia | reflexivity | reflexivity].
  - apply (use_promo_code_credits_redeemer db "VOID" 7 200
             (mk_promo None 1 true) Examples.alice);
      [reflexivity | reflexivity | simpl; lia | reflexivity | reflexivity].
Defined.
(** ** Users: creation, the ban flag, the balance column *)

(** X17.  [create_user] with a free referral code makes sure the row
    exists without ever touching a stored one: a row already there is kept
    as it is (balance included), a new row starts with balance 0, no sale,
    no withdrawal, not banned, no daily claim and [is_admin] set exactly
    when the id is in the allowlist; other users are untouched and any later
    [create_user] for the same id changes nothing. *)
Theorem create_user_inserts_once
    (admin_ids : list Z) (db : Database) (uid : Z) (name : string) :
  let db' := Db.create_user admin_ids db uid name false in
  Db.get_user db' uid =
    Some (match users db !! uid with
          | Some u => u
          | None =>
              mk_user name (Some 0%float) 0 (Some 0%float)
                (bool_decide (uid ∈ admin_ids))
                false None
          end)
  ∧ (∀ other, other ≠ uid → users db' !! other = users db !! other)
  ∧ ∀ name' taken', Db.create_user admin_ids db' uid name' taken' = db'.
Proof.
  intros db'. subst db'. unfold Db.get_user.
  destruct (users db !! uid) as [u |] eqn:Hu.
  - assert (Hsame : Db.create_user admin_ids db uid name false = db)
      by (unfold Db.create_user; by rewrite Hu).
    rewrite Hsame. split; [exact Hu |]. split; [done |].
    intros name' taken'. unfold Db.create_user. by rewrite Hu.
  - assert (Hnew :
      Db.create_user admin_ids db uid name false =
        with_users
          (<[uid := mk_user name (Some 0%float) 0 (Some 0%float)
                      (bool_decide (uid ∈ admin_ids)) false None]>
             (users db)) db)
      by (unfold Db.create_user; by rewrite Hu).
    rewrite Hnew. simpl. split; [apply lookup_insert_eq |].
    split; [intros other Hne; by rewrite lookup_insert_ne |].
    intros name' taken'. unfold Db.create_user. simpl.
    by rewrite lookup_insert_eq.
Qed.

(** X18.  Banning and then unbanning a user who was not banned gives back
    the store exactly, and banning twice is the same as banning once. *)
Theorem ban_then_unban_restores
    (db : Database) (uid : Z) (u : user) :
  users db !! uid = Some u →
  is_banned u = false →
  Db.unban_user (Db.ban_user db uid) uid = db
  ∧ Db.ban_user (Db.ban_user db uid) uid = Db.ban_user db uid.
Proof.
  intros Hu Hflag. unfold Db.unban_user, Db.ban_user. simpl.
  rewrite (alter_lookup_Some _ _ _ _ Hu), !alter_insert_eq.
  split; [| reflexivity].
  destruct db as [us gs gq ws wq ps ss]. unfold with_users. simpl in *.
  f_equal. apply insert_id. rewrite Hu. f_equal.
  destruct u; simpl in *; by subst.
Qed.

Lemma ban_then_unban_restores_witness :
  Db.unban_user (Db.ban_user Examples.db0 7) 7 = Examples.db0
  ∧ Db.ban_user (Db.ban_user Examples.db0 7) 7 = Db.ban_user Examples.db0 7.
Proof.
  apply (ban_then_unban_restores Examples.db0 7 Examples.alice); reflexivity.
Defined.

(** X19.  The admin "ban" button is a toggle that always ends in an error:
    for a stored user one press writes the opposite flag and then raises
    [ValueError], and a second press writes the original flag back, so two
    presses leave the store as it was. *)
Theorem admin_ban_button_toggles
    (db : Database) (uid : Z) (u : user) :
  users db !! uid = Some u →
  let once := Bot.admin_perform_user_action db "ban" uid in
  let twice := Bot.admin_perform_user_action (snd once) "ban" uid in
  once = (Raise ValueError, write_is_banned (negb (is_banned u)) uid db)
  ∧ twice = (Raise ValueError, db).
Proof.
  intros Hu once twice. subst once twice.
  assert (Honce :
    Bot.admin_perform_user_action db "ban" uid =
      (Raise ValueError, write_is_banned (negb (is_banned u)) uid db)).
  { unfold Bot.admin_perform_user_action, Db.get_user. simpl. rewrite Hu.
    by destruct (is_banned u). }
  rewrite Honce. split; [reflexivity |]. simpl.
  unfold Bot.admin_perform_user_action, Db.get_user, write_is_banned. simpl.
  rewrite (alter_lookup_Some _ _ _ _ Hu), lookup_insert_eq. simpl.
  f_equal.
  assert (Hback : ∀ b, is_banned u = b →
    with_users
      (alter (set_is_banned b) uid
         (<[uid := set_is_banned (negb b) u]> (users db)))
      (with_users (<[uid := set_is_banned (negb b) u]> (users db)) db) = db).
  { intros b Hb. rewrite alter_insert_eq.
    destruct db as [us gs gq ws wq ps ss]. unfold with_users. simpl in *.
    f_equal. apply insert_id. rewrite Hu. f_equal.
    destruct u; simpl in *; by subst. }
  destruct (is_banned u) eqn:Hflag; simpl; by apply Hback.
Qed.

Lemma admin_ban_button_toggles_witness :
  let once := Bot.admin_perform_user_action Examples.db0 "ban" 7 in
  let twice := Bot.admin_perform_user_action (snd once) "ban" 7 in
  once = (Raise ValueError, write_is_banned true 7 Examples.db0)
  ∧ twice = (Raise ValueError, Examples.db0).
Proof.
  apply (admin_ban_button_toggles Examples.db0 7 Examples.alice). reflexivity.
Defined.

(** X20.  A [NULL] balance is never repaired and blocks withdrawing: no
    [update_balance] turns it back into a number, [add_withdrawal] raises
    [TypeError] without writing, and so do the amount check of the
    conversation (for an amount that is not below 100) and the withdraw
    menu. *)
Theorem null_balance_is_sticky
    (db : Database) (uid : Z) (amt : float) (u : user) (method num : string) :
  users db !! uid = Some u →
  balance u = None →
  (∀ delta, Db.get_user_balance (Db.update_balance db uid delta) uid = None)
  ∧ Db.add_withdrawal db uid amt method num = (Raise TypeError, db)
  ∧ ((amt <? 100)%float = false →
     Bot.enter_withdraw_amount db uid (Some amt) = Raise TypeError)
  ∧ Bot.show_withdraw_info db uid = Raise TypeError.
Proof.
  intros Hu Hnull.
  assert (Hgb : Db.get_user_balance db uid = None)
    by (unfold Db.get_user_balance; by rewrite Hu).
  split; [| split; [| split]].
  - intros delta. unfold Db.get_user_balance, Db.update_balance. simpl.
    rewrite lookup_alter, decide_True by done. by rewrite Hu; simpl; rewrite Hnull.
  - unfold Db.add_withdrawal. by rewrite Hgb.
  - intros Hamt. unfold Bot.enter_withdraw_amount. by rewrite Hamt, Hgb.
  - unfold Bot.show_withdraw_info. by rewrite Hgb.
Qed.

Lemma null_balance_is_sticky_witness :
  let db := snd (Bot.show_daily_bonus (with_settings ∅ Examples.db0) 7 0) in
  (∀ delta, Db.get_user_balance (Db.update_balance db 7 delta) 7 = None)
  ∧ Db.add_withdrawal db 7 100 "bKash" "017" = (Raise TypeError, db)
  ∧ ((100 <? 100)%float = false →
     Bot.enter_withdraw_amount db 7 (Some 100%float) = Raise TypeError)
  ∧ Bot.show_withdraw_info db 7 = Raise TypeError.
Proof.
  intros db.
  apply (null_balance_is_sticky db 7 100
           (mk_user "Alice" None 0 (Some 0%float) false false
              (Some (IsoText 0)))
           "bKash" "017"); reflexivity.
Defined.

(** ** The daily bonus over time *)

Lemma show_daily_bonus_first_claim_witness :
  Bot.show_daily_bonus Examples.db0 7 1700000000123456 =
    (Return (Bot.BonusClaimed (Some 2%float)),
     with_users
       (<[7 := mk_user "Alice" (Some 202%float) 0 (Some 0%float) false false
                 (Some (IsoText 1700000000123456))]> (users Examples.db0))
       Examples.db0).
Proof.
  apply (show_daily_bonus_first_claim Examples.db0 7 Examples.alice
           1700000000123456); reflexivity.
Defined.


Lemma show_daily_bonus_fraction_raises_witness :
  let db :=
    with_users
      (<[7 := mk_user "Alice" (Some 202%float) 0 (Some 0%float) false false
                (Some (IsoText 1700000000123456))]> ∅) Examples.db0 in
  Bot.show_daily_bonus db 7 1800000000000000 = (Raise ValueError, db).
Proof.
  intros db.
  apply (show_daily_bonus_fraction_raises db 7
           (mk_user "Alice" (Some 202%float) 0 (Some 0%float) false false
              (Some (IsoText 1700000000123456)))
           1700000000123456 1800000000000000);
    [reflexivity | reflexivity | discriminate].
Defined.

(** X25.  The bonus is never credited twice inside a day: after a first
    claim at [t0], a further call at any time before [t0] plus 24 hours
    leaves the store exactly as the first claim left it, answering "Already
    claimed" when [t0] has a whole second and raising [ValueError]
    otherwise. *)
Theorem show_daily_bonus_no_second_credit_in_window
    (db : Database) (uid : Z) (u : user) (t0 t1 : datetime) :
  users db !! uid = Some u →
  last_daily_claim u = None →
  t1 < t0 + 86400000000 →
  let claimed := snd (Bot.show_daily_bonus db uid t0) in
  Bot.show_daily_bonus claimed uid t1 =
    (if microsecond t0 =? 0 then Return Bot.AlreadyClaimed
     else Raise ValueError, claimed).
Proof.
  intros Hu Hlast Hwin claimed. subst claimed.
  assert (Hfirst :
    snd (Bot.show_daily_bonus db uid t0) =
      with_users
        (<[uid := set_last_daily_claim (Some (adapt_datetime t0))
                    (set_balance
                       (sql_add (balance u)
                          (Db.get_setting db "daily_bonus_amount")) u)]>
           (users db)) db).
  { unfold Bot.show_daily_bonus, Db.get_user. rewrite Hu, Hlast.
    unfold Bot.claim_bonus, Db.update_balance. simpl.
    by rewrite (alter_lookup_Some _ _ _ _ Hu), alter_insert_eq. }
  rewrite Hfirst.
  unfold Bot.show_daily_bonus, Db.get_user. simpl.
  rewrite lookup_insert_eq. simpl.
  destruct (microsecond t0 =? 0); [| reflexivity].
  destruct (Z.leb_spec 1 (days_between t1 t0)) as [Hday | _]; [| reflexivity].
  apply days_between_ge_1 in Hday. lia.
Qed.

Lemma show_daily_bonus_no_second_credit_in_window_witness :
  let claimed := snd (Bot.show_daily_bonus Examples.db0 7 1700000000000000) in
  Bot.show_daily_bonus claimed 7 1700000000000001 =
    (Return Bot.AlreadyClaimed, claimed).
Proof.
  apply (show_daily_bonus_no_second_credit_in_window Examples.db0 7
           Examples.alice 1700000000000000 1700000000000001);
    [reflexivity | reflexivity | lia].
Defined.

(** ** [escape_html] *)

Lemma string_app_assoc (s t r : string) : (s +:+ t) +:+ r = s +:+ (t +:+ r).
Proof.
  induction s as [| a s IH]; [reflexivity |].
  change (String a ((s +:+ t) +:+ r) = String a (s +:+ (t +:+ r))).
  by rewrite IH.
Qed.

Lemma replace_char_app (old : Ascii.ascii) (new s t : string) :
  replace_char old new (s +:+ t) =
  replace_char old new s +:+ replace_char old new t.
Proof.
  induction s as [| a s IH]; simpl; [reflexivity |].
  destruct (Ascii.eqb a old); rewrite IH;
    [by rewrite string_app_assoc | reflexivity].
Qed.

Lemma escape_each_app (s t : string) :
  escape_each (s +:+ t) = escape_each s +:+ escape_each t.
Proof.
  induction s as [| a s IH]; simpl; [reflexivity |].
  by rewrite IH, string_app_assoc.
Qed.

Lemma occurs_app (c : Ascii.ascii) (s t : string) :
  occurs c (s +:+ t) = occurs c s || occurs c t.
Proof.
  induction s as [| a s IH]; simpl; [reflexivity |].
  by rewrite IH, orb_assoc.
Qed.

(** The three passes, run one after the other, escape each character of the
    original text once: the ampersands the later passes write are not
    escaped again. *)
Lemma three_passes_escape_each (t : string) :
  replace_char ">"%char "&gt;"
    (replace_char "<"%char "&lt;" (replace_char "&"%char "&amp;" t)) =
  escape_each t.
Proof.
  induction t as [| a t IH]; [reflexivity |].
  change (escape_each (String a t)) with (escape_char a +:+ escape_each t).
  rewrite <- IH.
  change (String a t) with (String a "" +:+ t).
  rewrite !replace_char_app. f_equal.
  unfold escape_char. simpl.
  destruct (Ascii.eqb_spec a "&"%char) as [-> | Hamp]; [reflexivity |].
  simpl. destruct (Ascii.eqb_spec a "<"%char) as [-> | Hlt]; [reflexivity |].
  simpl. destruct (Ascii.eqb_spec a ">"%char) as [-> | Hgt]; reflexivity.
Qed.

Lemma escape_html_escape_each (t : string) :
  escape_html (Some t) = escape_each t.
Proof.
  destruct t as [| a t]; [reflexivity |].
  unfold escape_html. apply three_passes_escape_each.
Qed.

(** X26.  Escaping goes through concatenation: the escaped form of two
    texts put together is the two escaped forms put together, so it does not
    matter whether a message is escaped piece by piece or as a whole. *)
Theorem escape_html_app (s t : string) :
  escape_html (Some (s +:+ t)) = escape_html (Some s) +:+ escape_html (Some t).
Proof. rewrite !escape_html_escape_each. apply escape_each_app. Qed.

(** X27.  The result of [escape_html] holds no ["<"] and no [">"], whatever
    the input, [None] included. *)
Theorem escape_html_no_angle_brackets (text : option string) :
  occurs "<"%char (escape_html text) = false
  ∧ occurs ">"%char (escape_html text) = false.
Proof.
  destruct text as [t |]; [| split; reflexivity].
  rewrite escape_html_escape_each.
  induction t as [| a t [IHlt IHgt]]; [split; reflexivity |].
  simpl. rewrite !occurs_app, IHlt, IHgt, !orb_false_r.
  unfold escape_char.
  destruct (Ascii.eqb_spec a "&"%char) as [-> | Hamp]; [split; reflexivity |].
  destruct (Ascii.eqb_spec a "<"%char) as [-> | Hlt]; [split; reflexivity |].
  destruct (Ascii.eqb_spec a ">"%char) as [-> | Hgt]; [split; reflexivity |].
  simpl. rewrite !orb_false_r.
  split; by apply Ascii.eqb_neq.
Qed.

(** X28.  A text with no ["&"], ["<"] or [">"] comes back unchanged. *)
Theorem escape_html_plain_text_unchanged (t : string) :
  occurs "&"%char t = false →
  occurs "<"%char t = false →
  occurs ">"%char t = false →
  escape_html (Some t) = t.
Proof.
  rewrite escape_html_escape_each.
  induction t as [| a t IH]; [reflexivity |].
  simpl. intros [Hamp Ha]%orb_false_elim [Hlt Hl]%orb_false_elim
           [Hgt Hg]%orb_false_elim.
  rewrite (IH Ha Hl Hg). unfold escape_char. by rewrite Hamp, Hlt, Hgt.
Qed.

Lemma escape_html_plain_text_unchanged_witness :
  escape_html (Some "Alice") = "Alice".
Proof.
  apply (escape_html_plain_text_unchanged "Alice"); reflexivity.
Defined.

